(** * Student data analysis (app.py): extraction and normalization core

    A shallow embedding of the pure core of [app.py]: the display
    formatter [format_value], the period order key [get_year_sort_key],
    the column extractors built on [re.compile(...).match], and the radar
    chart assembler [create_radar_chart] with its nested [normalize_value].

    Conventions of the embedding.
    - A Python [str] is a list of Unicode code points ([N]); the regular
      expressions and the [str] methods of the source work on code points.
    - A Python [float] is an exact rational extended with NaN and the two
      infinities ([pyfloat]); rounding and overflow of binary64 arithmetic
      are not modelled.
    - A raised exception is a value of [result]; [try/except] is a match on
      it that handles exactly the exception classes the source lists.
    - A [dict] is an association list in insertion order.
    - The tables of the Unicode character database that the built-ins
      consult (white space, decimal digits, other digits) are those of
      Unicode 14.0. *)

From Stdlib Require Import Ascii String.
From Stdlib Require Import List Bool NArith ZArith QArith Lia.
From Stdlib Require Import Lqa Sorted Permutation.
Import ListNotations.

Set Implicit Arguments.

Abbreviation length := Datatypes.length.

Close Scope Q_scope.

(** ** Code points and strings *)

Definition char := N.
Bind Scope N_scope with char.
Definition str := list char.

Definition char_eqb (a b : char) : bool := N.eqb a b.

Fixpoint str_eqb (a b : str) : bool :=
  match a, b with
  | [], [] => true
  | x :: a', y :: b' => char_eqb x y && str_eqb a' b'
  | _, _ => false
  end.

Definition str_in (s : str) (l : list str) : bool := existsb (str_eqb s) l.

(** ** The Unicode character database, as far as the built-ins read it *)

Module Unicode.

Definition in_ranges (rs : list (N * N)) (c : char) : bool :=
  existsb (fun r => N.leb (fst r) c && N.leb c (snd r)) rs.

(** [str.isspace] of one code point. *)
Definition whitespace_ranges : list (N * N) :=
  [ (0x9, 0xd); (0x1c, 0x20); (0x85, 0x85); (0xa0, 0xa0);
    (0x1680, 0x1680); (0x2000, 0x200a); (0x2028, 0x2029);
    (0x202f, 0x202f); (0x205f, 0x205f); (0x3000, 0x3000) ]%N.

Definition isspace (c : char) : bool := in_ranges whitespace_ranges c.

(** General category Nd: every block starts at its digit zero and holds
    the ten digits in order. *)
Definition decimal_blocks : list N :=
  [ 0x30; 0x660; 0x6f0; 0x7c0; 0x966; 0x9e6; 0xa66; 0xae6; 0xb66; 0xbe6;
    0xc66; 0xce6; 0xd66; 0xde6; 0xe50; 0xed0; 0xf20; 0x1040; 0x1090;
    0x17e0; 0x1810; 0x1946; 0x19d0; 0x1a80; 0x1a90; 0x1b50; 0x1bb0;
    0x1c40; 0x1c50; 0xa620; 0xa8d0; 0xa900; 0xa9d0; 0xa9f0; 0xaa50;
    0xabf0; 0xff10; 0x104a0; 0x10d30; 0x11066; 0x110f0; 0x11136;
    0x111d0; 0x112f0; 0x11450; 0x114d0; 0x11650; 0x116c0; 0x11730;
    0x118e0; 0x11950; 0x11c50; 0x11d50; 0x11da0; 0x16a60; 0x16ac0;
    0x16b50; 0x1d7ce; 0x1d7d8; 0x1d7e2; 0x1d7ec; 0x1d7f6; 0x1e140;
    0x1e2f0; 0x1e950; 0x1fbf0 ]%N.

(** [unicodedata.decimal]: the value of a decimal digit. *)
Definition decimal (c : char) : option N :=
  match find (fun b => N.leb b c && N.ltb c (b + 10)) decimal_blocks with
  | Some b => Some (c - b)%N
  | None => None
  end.

Definition isdecimal (c : char) : bool :=
  match decimal c with Some _ => true | None => false end.

(** Code points with Numeric_Type=Digit that are not decimal digits:
    superscripts, subscripts, circled and parenthesized digits. *)
Definition digit_only_ranges : list (N * N) :=
  [ (0xb2, 0xb3); (0xb9, 0xb9); (0x1369, 0x1371); (0x19da, 0x19da);
    (0x2070, 0x2070); (0x2074, 0x2079); (0x2080, 0x2089);
    (0x2460, 0x2468); (0x2474, 0x247c); (0x2488, 0x2490);
    (0x24ea, 0x24ea); (0x24f5, 0x24fd); (0x24ff, 0x24ff);
    (0x2776, 0x277e); (0x2780, 0x2788); (0x278a, 0x2792);
    (0x10a40, 0x10a43); (0x10e60, 0x10e68); (0x11052, 0x1105a);
    (0x1f100, 0x1f10a) ]%N.

(** [str.isdigit] of one code point. *)
Definition isdigit (c : char) : bool :=
  isdecimal c || in_ranges digit_only_ranges c.

(** [str.lower] of one code point.  The ASCII letters are mapped as
    usual; of the code points above 127 only U+0130 and U+212A have a
    lower case that contains an ASCII letter, and they are listed.  The
    other cased code points above 127 map to code points above 127; the
    source only compares the lowered text with ASCII words, which cannot
    tell those images from the code points themselves, so they are left
    as they are. *)
Definition lower (c : char) : list char :=
  if N.leb 0x41 c && N.leb c 0x5a then [c + 32]%N
  else if N.eqb c 0x130 then [0x69; 0x307]%N
  else if N.eqb c 0x212a then [0x6b]%N
  else [c].

End Unicode.

(** ** Exceptions *)

Inductive exn := ValueError | TypeError | ZeroDivisionError.

Inductive result (A : Type) :=
| Ok (a : A)
| Raise (e : exn).

Arguments Ok {A} a.
Arguments Raise {A} e.

Definition bind {A B} (r : result A) (k : A -> result B) : result B :=
  match r with
  | Ok a => k a
  | Raise e => Raise e
  end.

Notation "x <- r ;; k" := (bind r (fun x => k))
  (at level 61, r at next level, right associativity).

(** [except (ValueError, TypeError)] *)
Definition is_value_or_type_error (e : exn) : bool :=
  match e with
  | ValueError | TypeError => true
  | ZeroDivisionError => false
  end.

(** ** String literals

    The source is UTF-8 text; [u] decodes a literal of this file into the
    code points Python sees. *)

Fixpoint utf8_decode (bs : list N) : str :=
  match bs with
  | [] => []
  | b :: r =>
    if N.ltb b 0x80 then b :: utf8_decode r
    else if N.ltb b 0xe0 then
      match r with
      | b1 :: r' => ((b - 0xc0) * 0x40 + (b1 - 0x80))%N :: utf8_decode r'
      | _ => []
      end
    else if N.ltb b 0xf0 then
      match r with
      | b1 :: b2 :: r' =>
        ((b - 0xe0) * 0x1000 + (b1 - 0x80) * 0x40 + (b2 - 0x80))%N
          :: utf8_decode r'
      | _ => []
      end
    else
      match r with
      | b1 :: b2 :: b3 :: r' =>
        ((b - 0xf0) * 0x40000 + (b1 - 0x80) * 0x1000
         + (b2 - 0x80) * 0x40 + (b3 - 0x80))%N :: utf8_decode r'
      | _ => []
      end
  end.

Definition u (s : string) : str :=
  utf8_decode (map N_of_ascii (list_ascii_of_string s)).

(** ** Built-in string methods *)

Fixpoint lstrip (s : str) : str :=
  match s with
  | c :: s' => if Unicode.isspace c then lstrip s' else s
  | [] => []
  end.

Definition rstrip (s : str) : str := rev (lstrip (rev s)).

(** [s.strip()] *)
Definition strip (s : str) : str := rstrip (lstrip s).

(** [s.lower()] *)
Definition lower (s : str) : str := flat_map Unicode.lower s.

Fixpoint starts_with (p s : str) : bool :=
  match p, s with
  | [], _ => true
  | x :: p', y :: s' => char_eqb x y && starts_with p' s'
  | _ :: _, [] => false
  end.

(** [s.replace(old, new)] for a non-empty [old]: the occurrences are taken
    from left to right and do not overlap.  [skip] counts the code points
    of an occurrence that are still to be dropped. *)
Fixpoint replace_from (old new : str) (skip : nat) (s : str) : str :=
  match s with
  | [] => []
  | c :: s' =>
    match skip with
    | S k => replace_from old new k s'
    | O =>
      if starts_with old s
      then new ++ replace_from old new (length old - 1) s'
      else c :: replace_from old new 0 s'
    end
  end.

Definition replace (old new s : str) : str := replace_from old new 0 s.

(** [s.isdigit()] *)
Definition isdigit (s : str) : bool :=
  match s with
  | [] => false
  | _ => forallb Unicode.isdigit s
  end.

(** ** Numbers *)

(** A Python [float]. *)
Inductive pyfloat :=
| FNaN
| FInf (negative : bool)
| FFin (q : Q).

Definition ascii_isspace (c : char) : bool :=
  (N.leb 9 c && N.leb c 13) || N.eqb c 32.

Definition ascii_isdigit (c : char) : bool := N.leb 0x30 c && N.leb c 0x39.

Definition ascii_lower (c : char) : char :=
  if N.leb 0x41 c && N.leb c 0x5a then (c + 32)%N else c.

(** What [int] and [float] do to a [str] before they parse it: code points
    below 127 are kept, other white space becomes a blank, other decimal
    digits become ASCII digits, and the text ends with a question mark at
    the first code point that is none of these. *)
Fixpoint to_ascii_number_text (s : str) : str :=
  match s with
  | [] => []
  | c :: s' =>
    if N.ltb c 127 then c :: to_ascii_number_text s'
    else if Unicode.isspace c then 32%N :: to_ascii_number_text s'
    else
      match Unicode.decimal c with
      | Some d => (48 + d)%N :: to_ascii_number_text s'
      | None => [63%N]
      end
  end.

Fixpoint ascii_lstrip (s : str) : str :=
  match s with
  | c :: s' => if ascii_isspace c then ascii_lstrip s' else s
  | [] => []
  end.

Definition ascii_strip (s : str) : str :=
  rev (ascii_lstrip (rev (ascii_lstrip s))).

(** Underscores are allowed between two digits only. *)
Fixpoint remove_underscores (prev : char) (s : str) : option str :=
  match s with
  | [] => if char_eqb prev 0x5f then None else Some []
  | c :: s' =>
    if char_eqb c 0x5f then
      if ascii_isdigit prev then remove_underscores c s' else None
    else if char_eqb prev 0x5f && negb (ascii_isdigit c) then None
    else option_map (cons c) (remove_underscores c s')
  end.

Fixpoint span_digits (s : str) : list N * str :=
  match s with
  | c :: s' =>
    if ascii_isdigit c
    then let (ds, r) := span_digits s' in ((c - 48)%N :: ds, r)
    else ([], s)
  | [] => ([], [])
  end.

Definition digits_value (ds : list N) : Z :=
  fold_left (fun acc d => (10 * acc + Z.of_N d)%Z) ds 0%Z.

Definition take_sign (s : str) : bool * str :=
  match s with
  | c :: s' =>
    if char_eqb c 0x2d then (true, s')
    else if char_eqb c 0x2b then (false, s')
    else (false, s)
  | [] => (false, [])
  end.

Definition signed (negative : bool) (z : Z) : Z :=
  if negative then (- z)%Z else z.

(** [int(s)] for a [str] (base 10).  The limit on the number of digits of
    recent interpreters is a run-time setting and is left out. *)
Definition py_int (s : str) : result Z :=
  match remove_underscores 0%N (ascii_strip (to_ascii_number_text s)) with
  | None => Raise ValueError
  | Some t =>
    let (negative, digits) := take_sign t in
    match span_digits digits with
    | (d :: ds, []) => Ok (signed negative (digits_value (d :: ds)))
    | _ => Raise ValueError
    end
  end.

Definition parse_exponent (s : str) : option Z :=
  match s with
  | [] => Some 0%Z
  | c :: s' =>
    if char_eqb (ascii_lower c) 0x65 then
      let (negative, digits) := take_sign s' in
      match span_digits digits with
      | (d :: ds, []) => Some (signed negative (digits_value (d :: ds)))
      | _ => None
      end
    else None
  end.

Definition pow10 (e : Z) : Q :=
  if Z.leb 0 e then inject_Z (10 ^ e) else 1 # Z.to_pos (10 ^ (- e)).

Definition float_of_text (t : str) : option pyfloat :=
  let (negative, body) := take_sign t in
  let word := map ascii_lower body in
  if str_eqb word (u "inf") || str_eqb word (u "infinity")
  then Some (FInf negative)
  else if str_eqb word (u "nan") then Some FNaN
  else
    let (int_part, r1) := span_digits body in
    let (frac_part, r2) :=
      match r1 with
      | c :: r => if char_eqb c 0x2e then span_digits r else ([], r1)
      | [] => ([], [])
      end in
    match int_part ++ frac_part with
    | [] => None
    | ds =>
      match parse_exponent r2 with
      | Some e =>
        Some (FFin (inject_Z (signed negative (digits_value ds))
                    * pow10 (e - Z.of_nat (length frac_part))))
      | None => None
      end
    end.

(** [float(s)] for a [str]. *)
Definition float_of_str (s : str) : result pyfloat :=
  match remove_underscores 0%N (ascii_strip (to_ascii_number_text s)) with
  | None => Raise ValueError
  | Some t =>
    match float_of_text t with
    | Some x => Ok x
    | None => Raise ValueError
    end
  end.

(** ** Cell values *)

(** What a cell of the uploaded sheet holds: nothing, a float (NaN is the
    missing marker of pandas), an integer or text. *)
Inductive value :=
| VNone
| VNum (x : pyfloat)
| VInt (n : Z)
| VStr (s : str).

Definition is_None (v : value) : bool :=
  match v with VNone => true | _ => false end.

(** [pd.isna(value)] of a scalar *)
Definition pd_isna (v : value) : bool :=
  match v with
  | VNone | VNum FNaN => true
  | _ => false
  end.

Definition pd_notna (v : value) : bool := negb (pd_isna v).

(** [float(value)] *)
Definition py_float (v : value) : result pyfloat :=
  match v with
  | VNone => Raise TypeError
  | VNum x => Ok x
  | VInt n => Ok (FFin (inject_Z n))
  | VStr s => float_of_str s
  end.

Fixpoint uint_chars (d : Decimal.uint) : str :=
  match d with
  | Decimal.Nil => []
  | Decimal.D0 r => 0x30%N :: uint_chars r
  | Decimal.D1 r => 0x31%N :: uint_chars r
  | Decimal.D2 r => 0x32%N :: uint_chars r
  | Decimal.D3 r => 0x33%N :: uint_chars r
  | Decimal.D4 r => 0x34%N :: uint_chars r
  | Decimal.D5 r => 0x35%N :: uint_chars r
  | Decimal.D6 r => 0x36%N :: uint_chars r
  | Decimal.D7 r => 0x37%N :: uint_chars r
  | Decimal.D8 r => 0x38%N :: uint_chars r
  | Decimal.D9 r => 0x39%N :: uint_chars r
  end.

Definition str_of_int (n : Z) : str :=
  match n with
  | Z0 => [0x30%N]
  | Zpos p => uint_chars (Pos.to_uint p)
  | Zneg p => 0x2d%N :: uint_chars (Pos.to_uint p)
  end.

(** ** Dictionaries *)

Definition dict (V : Type) := list (str * V).

Fixpoint dict_get {V} (d : dict V) (k : str) : option V :=
  match d with
  | [] => None
  | (k', v) :: d' => if str_eqb k' k then Some v else dict_get d' k
  end.

(** [k in d] *)
Definition dict_mem {V} (d : dict V) (k : str) : bool :=
  match dict_get d k with Some _ => true | None => false end.

(** [d[k] = v]: an existing key keeps its place, a new one goes last. *)
Fixpoint dict_set {V} (d : dict V) (k : str) (v : V) : dict V :=
  match d with
  | [] => [(k, v)]
  | (k', v') :: d' =>
    if str_eqb k' k then (k', v) :: d' else (k', v') :: dict_set d' k v
  end.

Definition dict_keys {V} (d : dict V) : list str := map fst d.

(** ** Records of the sheet *)

(** One row of the sheet, a [pd.Series]: the column labels in sheet order,
    each with its cell.  Labels are taken to be distinct, as a data frame
    read from a sheet has them. *)
Definition series := dict value.

Definition index (s : series) : list str := dict_keys s.

(** [student_data.get(column)] *)
Definition series_get (s : series) (column : str) : value :=
  match dict_get s column with
  | Some v => v
  | None => VNone
  end.

(** ** Regular expressions, as far as the source uses them *)

Module Re.

(** A set [[...]]: the listed code points, and [\d] when [digits]. *)
Record cset := { chars : str; digits : bool }.

Definition cset_mem (cs : cset) (c : char) : bool :=
  existsb (char_eqb c) (chars cs) || (digits cs && Unicode.isdecimal c).

Inductive node :=
| Lit (c : char)            (* a literal code point *)
| GroupPlus (cs : cset)     (* ([...]+), a capturing group *)
| Star (cs : cset).         (* [...]* *)

Definition pattern := list node.

Definition lits (s : str) : pattern := map Lit s.

(** Length of the longest prefix of [s] inside [cs]. *)
Fixpoint run (cs : cset) (s : str) : nat :=
  match s with
  | c :: s' => if cset_mem cs c then S (run cs s') else O
  | [] => O
  end.

(** Greedy repetition: the longest count first, then backtracking. *)
Fixpoint longest_first {A} (f : nat -> option A) (n : nat) : option A :=
  match f n with
  | Some a => Some a
  | None =>
    match n with
    | O => None
    | S k => longest_first f k
    end
  end.

(** The groups of a match of [p] at the start of [s]. *)
Fixpoint match_here (p : pattern) (s : str) : option (list str) :=
  match p with
  | [] => Some []
  | Lit c :: p' =>
    match s with
    | x :: s' => if char_eqb x c then match_here p' s' else None
    | [] => None
    end
  | GroupPlus cs :: p' =>
    match run cs s with
    | O => None
    | S n =>
      longest_first
        (fun k => option_map (cons (firstn (S k) s))
                             (match_here p' (skipn (S k) s))) n
    end
  | Star cs :: p' =>
    longest_first (fun k => match_here p' (skipn k s)) (run cs s)
  end.

(** [pattern.match(s)] *)
Definition re_match (p : pattern) (s : str) : option (list str) :=
  match_here p s.

(** [m.group(i)] for [i >= 1] *)
Definition group (i : nat) (m : list str) : str := nth (i - 1) m [].

End Re.

(** ** format_value *)

Section Display.

(** [str(x)] of a float, the shortest text that reads back as [x]. *)
Variable float_repr : pyfloat -> str.

(** [str(value)] *)
Definition py_str (v : value) : str :=
  match v with
  | VNone => u "None"
  | VNum x => float_repr x
  | VInt n => str_of_int n
  | VStr s => s
  end.

Definition format_value (value : value) : str :=
  if pd_isna value || is_None value then u "无"
  else
    let s_value_stripped := strip (py_str value) in
    if match s_value_stripped with [] => true | _ => false end
       || str_in (lower s_value_stripped) [u "nan"; u "none"]
    then u "无"
    else py_str value.

End Display.

(** ** get_year_sort_key *)

Definition chinese_to_num_map : dict Z :=
  [ (u "一", 1); (u "二", 2); (u "三", 3); (u "四", 4); (u "五", 5);
    (u "六", 6); (u "七", 7); (u "八", 8); (u "九", 9); (u "十", 10) ]%Z.

(** The default of [dict.get] is an argument: it is evaluated, and may
    raise, before the table is read. *)
Definition get_year_sort_key (year_str_input : str) : result Z :=
  let year_str := replace (u "学年") [] (replace (u "第") [] year_str_input) in
  default <- (if isdigit year_str then py_int year_str else Ok 999%Z) ;;
  Ok (match dict_get chinese_to_num_map year_str with
      | Some n => n
      | None => default
      end).

(** ** list.sort(key=...)

    The sort of Python is stable; a list has one stable ascending
    arrangement, computed here by insertion. *)

Section Sort.

Variable A : Type.
Variable key : A -> Z.

Fixpoint insert_by (x : A) (l : list A) : list A :=
  match l with
  | [] => [x]
  | y :: l' =>
    if Z.leb (key x) (key y) then x :: y :: l' else y :: insert_by x l'
  end.

Fixpoint sort_by (l : list A) : list A :=
  match l with
  | [] => []
  | x :: l' => insert_by x (sort_by l')
  end.

End Sort.

(** ** Loops that may raise *)

Fixpoint for_each {A B} (body : A -> B -> result A) (xs : list B) (acc : A)
  : result A :=
  match xs with
  | [] => Ok acc
  | x :: xs' => acc' <- body acc x ;; for_each body xs' acc'
  end.

(** ** extract_semester_gpa_data *)

Record gpa_entry := { semester : str; gpa : pyfloat; sort_key : Z }.

(** [第([一二三四五六七八九十\d]+)学期绩点] *)
Definition gpa_pattern : Re.pattern :=
  Re.lits (u "第")
  ++ [Re.GroupPlus {| Re.chars := u "一二三四五六七八九十"; Re.digits := true |}]
  ++ Re.lits (u "学期绩点").

(** The body of the loop over the columns.  [float] and
    [get_year_sort_key] are both inside the [try]; the handler [continue]s
    on [ValueError] and [TypeError]. *)
Definition gpa_visit (student_data : series) (gpa_data : list gpa_entry)
    (column : str) : result (list gpa_entry) :=
  match Re.re_match gpa_pattern column with
  | Some m =>
    let value := series_get student_data column in
    if pd_notna value && negb (is_None value) then
      match
        (float_value <- py_float value ;;
         let semester_num_str := Re.group 1 m in
         sort_key <- get_year_sort_key semester_num_str ;;
         Ok (gpa_data ++
             [ {| semester := u "第" ++ semester_num_str ++ u "学期";
                  gpa := float_value;
                  sort_key := sort_key |} ]))
      with
      | Ok gpa_data' => Ok gpa_data'
      | Raise e => if is_value_or_type_error e then Ok gpa_data else Raise e
      end
    else Ok gpa_data
  | None => Ok gpa_data
  end.

(** The record is a [pd.Series], so the second scan runs whenever the first
    one found nothing; [student_data.keys()] is the index again. *)
Definition extract_semester_gpa_data (student_data : series)
  : result (list gpa_entry) :=
  gpa_data <- for_each (gpa_visit student_data) (index student_data) [] ;;
  gpa_data <- (match gpa_data with
               | [] => for_each (gpa_visit student_data)
                                (index student_data) gpa_data
               | _ => Ok gpa_data
               end) ;;
  Ok (sort_by sort_key gpa_data).

(** ** extract_academic_year_data and its siblings *)

(** The set [[一二三四五六七八\\d]] of the raw-string patterns: inside a
    set [\\] is a backslash and [d] is the letter. *)
Definition year_numeral_set : Re.cset :=
  {| Re.chars := u "一二三四五六七八\d"; Re.digits := false |}.

(** [第([一二三四五六七八\\d]+)学年...] *)
Definition year_pattern (suffix : str) : Re.pattern :=
  Re.lits (u "第") ++ [Re.GroupPlus year_numeral_set]
  ++ Re.lits (u "学年" ++ suffix).

Definition year_patterns : dict Re.pattern :=
  [ (u "德育", year_pattern (u "德育"));
    (u "智育", year_pattern (u "智育"));
    (u "体测成绩", year_pattern (u "体测成绩"));
    (u "体测评级", year_pattern (u "体测评级"));
    (u "附加分", year_pattern (u "附加分"));
    (u "综测总分", year_pattern (u "综测总分")) ].

(** [d[k]] where the key is known to be there. *)
Definition dict_item {V} (d : dict (dict V)) (k : str) : dict V :=
  match dict_get d k with
  | Some v => v
  | None => []
  end.

(** One pattern tried on one column. *)
Definition year_visit (student_data : series) (column : str)
    (academic_years : dict (dict value)) (entry : str * Re.pattern)
  : dict (dict value) :=
  let (field_type, pattern) := entry in
  match Re.re_match pattern column with
  | Some m =>
    let year_num_str := Re.group 1 m in
    let value := series_get student_data column in
    let academic_years :=
      if dict_mem academic_years year_num_str then academic_years
      else dict_set academic_years year_num_str [] in
    dict_set academic_years year_num_str
             (dict_set (dict_item academic_years year_num_str) field_type value)
  | None => academic_years
  end.

Definition extract_academic_year_data (student_data : series)
  : dict (dict value) :=
  fold_left
    (fun academic_years column =>
       fold_left (year_visit student_data column) year_patterns academic_years)
    (index student_data) [].

(** [第([一二三四五六七八\\d]+)学年困难等级] *)
Definition poverty_pattern : Re.pattern := year_pattern (u "困难等级").

Definition extract_yearly_poverty_level_data (student_data : series)
  : dict value :=
  fold_left
    (fun poverty_data column =>
       match Re.re_match poverty_pattern column with
       | Some m =>
         dict_set poverty_data (Re.group 1 m) (series_get student_data column)
       | None => poverty_data
       end)
    (index student_data) [].

(** [第([一二三四五六七八九十\\d]+)学年心理[评测]*等级] *)
Definition psych_pattern : Re.pattern :=
  Re.lits (u "第")
  ++ [Re.GroupPlus
        {| Re.chars := u "一二三四五六七八九十\d"; Re.digits := false |}]
  ++ Re.lits (u "学年心理")
  ++ [Re.Star {| Re.chars := u "评测"; Re.digits := false |}]
  ++ Re.lits (u "等级").

Definition extract_yearly_psychological_level_data (student_data : series)
  : dict value :=
  fold_left
    (fun psych_data column =>
       match Re.re_match psych_pattern column with
       | Some m =>
         dict_set psych_data (Re.group 1 m) (series_get student_data column)
       | None => psych_data
       end)
    (index student_data) [].

(** ** Float arithmetic *)

Definition Qltb (a b : Q) : bool := negb (Qle_bool b a).

Definition Qis_zero (a : Q) : bool := Qeq_bool a 0.

Definition xorb_sign (s : bool) (q : Q) : bool := xorb s (Qltb q 0).

(** [x - y] *)
Definition fsub (x y : pyfloat) : pyfloat :=
  match x, y with
  | FNaN, _ | _, FNaN => FNaN
  | FInf s, FInf t => if Bool.eqb s t then FNaN else FInf s
  | FInf s, FFin _ => FInf s
  | FFin _, FInf t => FInf (negb t)
  | FFin a, FFin b => FFin (a - b)
  end.

(** [x * y] *)
Definition fmul (x y : pyfloat) : pyfloat :=
  match x, y with
  | FNaN, _ | _, FNaN => FNaN
  | FInf s, FInf t => FInf (xorb s t)
  | FInf s, FFin b => if Qis_zero b then FNaN else FInf (xorb_sign s b)
  | FFin a, FInf t => if Qis_zero a then FNaN else FInf (xorb_sign t a)
  | FFin a, FFin b => FFin (a * b)
  end.

Definition fis_zero (x : pyfloat) : bool :=
  match x with
  | FFin a => Qis_zero a
  | _ => false
  end.

(** [x / y]: a zero divisor raises whatever the dividend is. *)
Definition fdiv (x y : pyfloat) : result pyfloat :=
  if fis_zero y then Raise ZeroDivisionError
  else
    Ok match x, y with
       | FNaN, _ | _, FNaN => FNaN
       | FInf s, FInf t => FNaN
       | FInf s, FFin b => FInf (xorb_sign s b)
       | FFin _, FInf _ => FFin 0
       | FFin a, FFin b => FFin (a / b)
       end.

(** [x < y] *)
Definition flt (x y : pyfloat) : bool :=
  match x, y with
  | FNaN, _ | _, FNaN => false
  | FInf s, FInf t => s && negb t
  | FInf s, FFin _ => s
  | FFin _, FInf t => negb t
  | FFin a, FFin b => Qltb a b
  end.

(** [max(a, b)] and [min(a, b)] keep their first argument unless the second
    one compares greater, respectively less. *)
Definition py_max (a b : pyfloat) : pyfloat := if flt a b then b else a.
Definition py_min (a b : pyfloat) : pyfloat := if flt b a then b else a.

(** ** create_radar_chart *)

(** [st.session_state.user_normalization_params]: for each field its
    ['min'] and ['max'].  The session dictionary is created with the five
    fields and no key is ever removed, so it is read as a total map. *)
Definition normalization_config := str -> Q * Q.

Definition default_normalization_params : normalization_config :=
  fun field =>
    if str_eqb field (u "德育") then (12, 15)%Q
    else if str_eqb field (u "智育") then (0, 105)%Q
    else if str_eqb field (u "体测成绩") then (0, 120)%Q
    else if str_eqb field (u "附加分") then (-1, 10)%Q
    else (0, 110)%Q.

Definition normalize_value (value : value) (min_val max_val : Q)
  : result pyfloat :=
  if pd_isna value || is_None value then Ok (FFin 0)
  else
    match
      (x <- py_float value ;;
       ratio <- fdiv (fsub x (FFin min_val)) (FFin (max_val - min_val)) ;;
       Ok (py_max (FFin 0) (py_min (FFin 100) (fmul ratio (FFin 100)))))
    with
    | Ok r => Ok r
    | Raise e => if is_value_or_type_error e then Ok (FFin 0) else Raise e
    end.

Definition get_display_value (value : value) : pyfloat :=
  if pd_isna value || is_None value then FFin 0
  else
    match py_float value with
    | Ok x => x
    | Raise _ => FFin 0
    end.

Definition radar_item := (str * pyfloat * pyfloat)%type.

(** What the figure is built from. *)
Record figure := {
  trace_r : list pyfloat;
  trace_theta : list str;
  trace_name : str;
  layout_title : str
}.

Definition radar_fields : list str :=
  [u "德育"; u "智育"; u "体测成绩"; u "附加分"; u "综测总分"].

(** The gate on ['综测总分']. *)
Definition is_invalid_score (comprehensive_score_value : value) : bool :=
  if pd_isna comprehensive_score_value || is_None comprehensive_score_value
  then true
  else
    match py_float comprehensive_score_value with
    | Ok _ => false
    | Raise _ => true
    end.

Section Radar.

Variable user_normalization_params : normalization_config.

Definition normalization_params : dict (Q * Q) :=
  map (fun field => (field, user_normalization_params field)) radar_fields.

(** The body of the loop over the five fields. *)
Definition radar_visit (year_data : dict value)
    (radar_items : list radar_item) (field : str)
  : result (list radar_item) :=
  match dict_get year_data field with
  | Some v =>
    let (min_val, max_val) :=
      match dict_get normalization_params field with
      | Some range => range
      | None => (0, 100)%Q
      end in
    normalized <- normalize_value v min_val max_val ;;
    Ok (radar_items ++ [(field, normalized, get_display_value v)])
  | None => Ok radar_items
  end.

(** [(None, None)] is [None]; [(fig, radar_items)] is [Some]. *)
Definition create_radar_chart (year_data : dict value) (year_name : str)
  : result (option (figure * list radar_item)) :=
  let comprehensive_score_value := series_get year_data (u "综测总分") in
  if is_invalid_score comprehensive_score_value then Ok None
  else
    radar_items <- for_each (radar_visit year_data) radar_fields [] ;;
    match radar_items with
    | [] => Ok None
    | _ =>
      let categories := map (fun item => fst (fst item)) radar_items in
      let values := map (fun item => snd (fst item)) radar_items in
      Ok (Some ({| trace_r := values;
                   trace_theta := categories;
                   trace_name := year_name ++ u "综合评分";
                   layout_title := year_name ++ u "综合素质雷达图" |},
                radar_items))
    end.

End Radar.

(** * Properties *)

Unset Implicit Arguments.

(** ** Strings *)

Lemma str_eqb_refl (s : str) : str_eqb s s = true.
Proof.
  induction s as [|c s IH]; simpl; auto.
  unfold char_eqb. rewrite N.eqb_refl. exact IH.
Qed.

Lemma str_eqb_eq (a b : str) : str_eqb a b = true <-> a = b.
Proof.
  split.
  - revert b. induction a as [|x a IH]; destruct b as [|y b]; simpl;
      try discriminate; auto.
    intros H. apply andb_true_iff in H. destruct H as [Hc Hs].
    apply N.eqb_eq in Hc. subst y. f_equal. auto.
  - intros ->. apply str_eqb_refl.
Qed.

Lemma str_eqb_neq (a b : str) : str_eqb a b = false <-> a <> b.
Proof.
  destruct (str_eqb a b) eqn:E.
  - apply str_eqb_eq in E. split; [discriminate | intros H; contradiction].
  - split; auto. intros _ H. apply str_eqb_eq in H. congruence.
Qed.

Lemma forallb_rev {A} (f : A -> bool) (l : list A) :
  forallb f (rev l) = forallb f l.
Proof.
  induction l as [|x l IH]; simpl; auto.
  rewrite forallb_app, IH. simpl. rewrite andb_true_r. apply andb_comm.
Qed.

Lemma forallb_lstrip (s : str) :
  forallb Unicode.isspace (lstrip s) = forallb Unicode.isspace s.
Proof.
  induction s as [|c s IH]; simpl; auto.
  destruct (Unicode.isspace c) eqn:E; simpl; auto.
  rewrite E. reflexivity.
Qed.

Lemma lstrip_nil (s : str) :
  match lstrip s with [] => true | _ => false end
  = forallb Unicode.isspace s.
Proof.
  induction s as [|c s IH]; simpl; auto.
  destruct (Unicode.isspace c) eqn:E; simpl; auto.
Qed.

(** The text that [strip] empties is the text made of white space only. *)
Lemma strip_nil (s : str) :
  match strip s with [] => true | _ => false end
  = forallb Unicode.isspace s.
Proof.
  unfold strip, rstrip.
  rewrite <- (forallb_lstrip s), <- (forallb_rev _ (lstrip s)).
  rewrite <- lstrip_nil.
  destruct (lstrip (rev (lstrip s))) as [|c t]; simpl; auto.
  destruct (rev t ++ [c]) eqn:E; auto.
  destruct (rev t); discriminate.
Qed.

(** ** format_value *)

(** The words of the specification: white space only, and the two words
    that stand for a missing value, in any letter case. *)
Definition whitespace_only (s : str) : bool := forallb Unicode.isspace s.

Definition nan_none_token (s : str) : bool :=
  str_in (lower s) [u "nan"; u "none"].

(** The display rule as the specification words it: the two words count
    only when they are the whole text. *)
Definition to_display_string_as_specified (float_repr : pyfloat -> str)
    (v : value) : str :=
  if pd_isna v || whitespace_only (py_str float_repr v)
     || nan_none_token (py_str float_repr v)
  then u "无"
  else py_str float_repr v.

(** The display rule of the code: the two words also count with white
    space around them. *)
Definition to_display_string (float_repr : pyfloat -> str) (v : value)
  : str :=
  if pd_isna v || whitespace_only (py_str float_repr v)
     || nan_none_token (strip (py_str float_repr v))
  then u "无"
  else py_str float_repr v.

Lemma pd_isna_or_None (v : value) : pd_isna v || is_None v = pd_isna v.
Proof. destruct v as [|[| |]| |]; reflexivity. Qed.

Lemma format_value_unfold (float_repr : pyfloat -> str) (v : value) :
  format_value float_repr v
  = if pd_isna v then u "无"
    else if whitespace_only (py_str float_repr v)
            || nan_none_token (strip (py_str float_repr v))
         then u "无" else py_str float_repr v.
Proof.
  unfold format_value. rewrite pd_isna_or_None, strip_nil. reflexivity.
Qed.

(** C8, as stated, fails: the word nan between blanks is neither missing,
    nor blank, nor one of the two words, and is still displayed as 无. *)
Lemma format_value_padded_token_counterexample :
  ~ (forall float_repr v,
        format_value float_repr v
        = to_display_string_as_specified float_repr v).
Proof.
  intros H.
  specialize (H (fun _ => []) (VStr (u " nan "))).
  vm_compute in H. discriminate H.
Qed.

(** C8, amended: [format_value] is total; it maps every missing value
    (None, NaN), every blank or white-space-only text, and the words nan
    and none in any letter case, with or without white space around them,
    to 无, and every other value to its string form unchanged. *)
Theorem format_value_display_rule (float_repr : pyfloat -> str) (v : value) :
  format_value float_repr v = to_display_string float_repr v.
Proof.
  rewrite format_value_unfold. unfold to_display_string.
  destruct (pd_isna v); reflexivity.
Qed.

(** C9: [format_value] applied to its own output changes nothing. *)
Theorem format_value_idempotent (float_repr : pyfloat -> str) (v : value) :
  format_value float_repr (VStr (format_value float_repr v))
  = format_value float_repr v.
Proof.
  rewrite (format_value_unfold float_repr v).
  destruct (pd_isna v).
  - vm_compute. reflexivity.
  - destruct (whitespace_only (py_str float_repr v)
              || nan_none_token (strip (py_str float_repr v))) eqn:E.
    + vm_compute. reflexivity.
    + rewrite format_value_unfold. simpl. rewrite E. reflexivity.
Qed.

(** ** Digits *)

Definition block_clear_of (b : N) (r : N * N) : bool :=
  N.ltb (b + 9) (fst r) || N.ltb (snd r) b.

Lemma decimal_blocks_clear_of_whitespace :
  forallb (fun b => forallb (block_clear_of b) Unicode.whitespace_ranges)
          Unicode.decimal_blocks = true.
Proof. vm_compute. reflexivity. Qed.

Lemma decimal_block (c : char) (d : N) :
  Unicode.decimal c = Some d ->
  exists b, In b Unicode.decimal_blocks
            /\ (b <= c)%N /\ (c < b + 10)%N /\ d = (c - b)%N.
Proof.
  unfold Unicode.decimal.
  destruct (find _ Unicode.decimal_blocks) as [b|] eqn:E; [|discriminate].
  intros [= <-]. apply find_some in E. destruct E as [Hin Hb].
  apply andb_true_iff in Hb. destruct Hb as [H1 H2].
  apply N.leb_le in H1. apply N.ltb_lt in H2.
  exists b. auto.
Qed.

Lemma decimal_not_space (c : char) (d : N) :
  Unicode.decimal c = Some d -> Unicode.isspace c = false.
Proof.
  intros H. apply decimal_block in H.
  destruct H as (b & Hin & Hlo & Hhi & _).
  pose proof decimal_blocks_clear_of_whitespace as Hall.
  rewrite forallb_forall in Hall. specialize (Hall b Hin).
  rewrite forallb_forall in Hall.
  unfold Unicode.isspace, Unicode.in_ranges.
  destruct (existsb _ Unicode.whitespace_ranges) eqn:E; auto.
  apply existsb_exists in E. destruct E as (r & Hr & Hc).
  specialize (Hall r Hr). unfold block_clear_of in Hall.
  apply andb_true_iff in Hc. destruct Hc as [Hc1 Hc2].
  apply N.leb_le in Hc1. apply N.leb_le in Hc2.
  apply orb_true_iff in Hall. destruct Hall as [Hl|Hl];
    apply N.ltb_lt in Hl; lia.
Qed.

Lemma decimal_below_127 (c : char) (d : N) :
  Unicode.decimal c = Some d -> (c < 127)%N ->
  ascii_isdigit c = true /\ d = (c - 48)%N.
Proof.
  intros H Hc. apply decimal_block in H.
  destruct H as (b & Hin & Hlo & Hhi & ->).
  assert (Hb : forallb (fun b => N.eqb b 0x30 || N.leb 127 b)
                       Unicode.decimal_blocks = true)
    by (vm_compute; reflexivity).
  rewrite forallb_forall in Hb. specialize (Hb b Hin).
  apply orb_true_iff in Hb. destruct Hb as [Hb|Hb].
  - apply N.eqb_eq in Hb. subst b. split; auto.
    unfold ascii_isdigit. apply andb_true_iff.
    split; apply N.leb_le; lia.
  - apply N.leb_le in Hb. lia.
Qed.

(** The ASCII digits are decimal digits with their usual values. *)
Lemma ascii_digit_decimal (c : char) :
  ascii_isdigit c = true -> Unicode.decimal c = Some (c - 48)%N.
Proof.
  unfold ascii_isdigit. intros H. apply andb_true_iff in H.
  destruct H as [H1 H2]. apply N.leb_le in H1. apply N.leb_le in H2.
  assert (E1 : N.leb 0x30 c = true) by (apply N.leb_le; lia).
  assert (E2 : N.ltb c (0x30 + 10) = true) by (apply N.ltb_lt; lia).
  unfold Unicode.decimal, Unicode.decimal_blocks. cbn [find].
  rewrite E1, E2. reflexivity.
Qed.

Lemma ascii_digit_not_space (c : char) :
  ascii_isdigit c = true -> ascii_isspace c = false.
Proof.
  unfold ascii_isdigit, ascii_isspace. intros H.
  apply andb_true_iff in H. destruct H as [H1 H2].
  apply N.leb_le in H1. apply N.leb_le in H2.
  apply orb_false_iff. split.
  - apply andb_false_iff. right. apply N.leb_gt. lia.
  - apply N.eqb_neq. lia.
Qed.

Lemma ascii_digit_not_mark (c : char) :
  ascii_isdigit c = true ->
  char_eqb c 0x5f = false /\ char_eqb c 0x2d = false
  /\ char_eqb c 0x2b = false.
Proof.
  unfold ascii_isdigit, char_eqb. intros H.
  apply andb_true_iff in H. destruct H as [H1 H2].
  apply N.leb_le in H1. apply N.leb_le in H2.
  repeat split; apply N.eqb_neq; lia.
Qed.

(** The digit of a decimal code point, as an ASCII code point. *)
Definition ascii_digit_of (c : char) : char :=
  match Unicode.decimal c with
  | Some d => (48 + d)%N
  | None => 63%N
  end.

Lemma ascii_digit_of_isdigit (c : char) :
  Unicode.isdecimal c = true -> ascii_isdigit (ascii_digit_of c) = true.
Proof.
  unfold Unicode.isdecimal, ascii_digit_of.
  destruct (Unicode.decimal c) as [d|] eqn:E; [|discriminate].
  intros _. apply decimal_block in E.
  destruct E as (b & _ & Hlo & Hhi & ->).
  unfold ascii_isdigit. apply andb_true_iff.
  split; apply N.leb_le; lia.
Qed.

Lemma to_ascii_number_text_decimal (s : str) :
  forallb Unicode.isdecimal s = true ->
  to_ascii_number_text s = map ascii_digit_of s.
Proof.
  induction s as [|c s IH]; simpl; auto.
  intros H. apply andb_true_iff in H. destruct H as [Hc Hs].
  rewrite (IH Hs). unfold Unicode.isdecimal in Hc.
  destruct (Unicode.decimal c) as [d|] eqn:E; [|discriminate].
  assert (Hx : ascii_digit_of c = (48 + d)%N)
    by (unfold ascii_digit_of; rewrite E; reflexivity).
  rewrite Hx.
  destruct (N.ltb c 127) eqn:Hlt.
  - apply N.ltb_lt in Hlt.
    destruct (@decimal_below_127 c d E Hlt) as [Hd ->].
    unfold ascii_isdigit in Hd. apply andb_true_iff in Hd.
    destruct Hd as [Hd _]. apply N.leb_le in Hd.
    f_equal. unfold char in *. lia.
  - rewrite (@decimal_not_space c d E). reflexivity.
Qed.

Lemma ascii_lstrip_digits (t : str) :
  forallb ascii_isdigit t = true -> ascii_lstrip t = t.
Proof.
  destruct t as [|c t]; simpl; auto.
  intros H. apply andb_true_iff in H. destruct H as [Hc _].
  rewrite (ascii_digit_not_space _ Hc). reflexivity.
Qed.

Lemma ascii_strip_digits (t : str) :
  forallb ascii_isdigit t = true -> ascii_strip t = t.
Proof.
  intros H. unfold ascii_strip.
  rewrite (ascii_lstrip_digits _ H), ascii_lstrip_digits, rev_involutive;
    auto.
  rewrite forallb_rev. exact H.
Qed.

Lemma remove_underscores_digits (t : str) (prev : char) :
  forallb ascii_isdigit t = true -> char_eqb prev 0x5f = false ->
  remove_underscores prev t = Some t.
Proof.
  revert prev. induction t as [|c t IH]; simpl; intros prev H Hp.
  - rewrite Hp. reflexivity.
  - apply andb_true_iff in H. destruct H as [Hc Ht].
    destruct (ascii_digit_not_mark _ Hc) as (Hu & _ & _).
    rewrite Hu, Hp. simpl. rewrite (IH c Ht Hu). reflexivity.
Qed.

Lemma span_digits_digits (t : str) :
  forallb ascii_isdigit t = true ->
  span_digits t = (map (fun c => (c - 48)%N) t, []).
Proof.
  induction t as [|c t IH]; simpl; auto.
  intros H. apply andb_true_iff in H. destruct H as [Hc Ht].
  rewrite Hc, (IH Ht). reflexivity.
Qed.

(** The number that a text of decimal digits writes in base ten. *)
Definition base10 (s : str) : Z :=
  digits_value (map (fun c => (ascii_digit_of c - 48)%N) s).

(** [int] reads every non-empty text of decimal digits. *)
Lemma py_int_decimal (s : str) :
  s <> [] -> forallb Unicode.isdecimal s = true -> py_int s = Ok (base10 s).
Proof.
  intros Hne H. unfold py_int, base10.
  rewrite (to_ascii_number_text_decimal _ H).
  assert (Hd : forallb ascii_isdigit (map ascii_digit_of s) = true).
  { rewrite forallb_forall in H. apply forallb_forall.
    intros x Hx. apply in_map_iff in Hx. destruct Hx as (c & <- & Hc).
    apply ascii_digit_of_isdigit. auto. }
  rewrite (ascii_strip_digits _ Hd).
  rewrite (remove_underscores_digits _ 0%N Hd eq_refl).
  destruct s as [|c s]; [congruence|]. simpl map in *.
  simpl in Hd. apply andb_true_iff in Hd. destruct Hd as [Hc Hs].
  unfold take_sign.
  destruct (ascii_digit_not_mark _ Hc) as (_ & Hm & Hp).
  rewrite Hm, Hp.
  rewrite (span_digits_digits (ascii_digit_of c :: map ascii_digit_of s))
    by (simpl; rewrite Hc, Hs; reflexivity).
  simpl map. rewrite map_map. reflexivity.
Qed.

(** ** get_year_sort_key *)

Lemma replace_from_incl (old : str) (s : str) (skip : nat) (c : char) :
  In c (replace_from old [] skip s) -> In c s.
Proof.
  revert skip. induction s as [|x s IH]; simpl; intros skip H; auto.
  destruct skip as [|k].
  - destruct (starts_with old (x :: s)).
    + right. eapply IH. exact H.
    + destruct H as [H|H]; [left; exact H | right; eapply IH; exact H].
  - right. eapply IH. exact H.
Qed.

Lemma replace_incl (old s : str) (c : char) :
  In c (replace old [] s) -> In c s.
Proof. apply replace_from_incl. Qed.

(** The text that is looked up: the input without 第 and 学年. *)
Definition year_text (year_str_input : str) : str :=
  replace (u "学年") [] (replace (u "第") [] year_str_input).

Lemma year_text_incl (s : str) (c : char) : In c (year_text s) -> In c s.
Proof. intros H. apply replace_incl in H. apply replace_incl in H. exact H. Qed.

Lemma isdigit_forallb (s : str) :
  isdigit s = true -> s <> [] /\ forallb Unicode.isdigit s = true.
Proof. destruct s; simpl; [discriminate|]. intros H. split; congruence. Qed.

Lemma dict_get_In {V} (d : dict V) (k : str) (v : V) :
  dict_get d k = Some v -> In (k, v) d.
Proof.
  induction d as [|[k' v'] d IH]; simpl; [discriminate|].
  destruct (str_eqb k' k) eqn:E.
  - apply str_eqb_eq in E. subst k'. intros [= <-]. left. reflexivity.
  - intros H. right. auto.
Qed.

Lemma table_keys_not_digit (t : str) (n : Z) :
  dict_get chinese_to_num_map t = Some n -> isdigit t = false.
Proof.
  intros H. apply dict_get_In in H. unfold chinese_to_num_map in H.
  repeat (destruct H as [H|H];
          [injection H as <- <-; vm_compute; reflexivity|]).
  destruct H.
Qed.

(** Where the function returns, and what: the table for its ten keys, base
    ten for a text of decimal digits, 999 for a text that is neither a key
    nor made of digits only. *)
Lemma get_year_sort_key_cases (s : str) :
  (forall n, dict_get chinese_to_num_map (year_text s) = Some n ->
             get_year_sort_key s = Ok n)
  /\ (year_text s <> [] -> forallb Unicode.isdecimal (year_text s) = true ->
      get_year_sort_key s = Ok (base10 (year_text s)))
  /\ (dict_get chinese_to_num_map (year_text s) = None ->
      isdigit (year_text s) = false -> get_year_sort_key s = Ok 999%Z).
Proof.
  unfold get_year_sort_key. fold (year_text s).
  repeat split.
  - intros n Hn. rewrite (table_keys_not_digit _ _ Hn). cbn [bind]. rewrite Hn.
    reflexivity.
  - intros Hne Hd.
    assert (Hdig : isdigit (year_text s) = true).
    { destruct (year_text s) as [|c t]; [congruence|].
      unfold isdigit. rewrite forallb_forall in Hd. apply forallb_forall.
      intros x Hx. unfold Unicode.isdigit. rewrite (Hd x Hx). reflexivity. }
    rewrite Hdig, (py_int_decimal _ Hne Hd). cbn [bind].
    destruct (dict_get chinese_to_num_map (year_text s)) as [n|] eqn:E; auto.
    rewrite (table_keys_not_digit _ _ E) in Hdig. discriminate.
  - intros Hnone Hnd. rewrite Hnd, Hnone. reflexivity.
Qed.

(** The function returns on every text in which each digit is a decimal
    digit. *)
Lemma get_year_sort_key_returns (s : str) :
  (forall c, In c s -> Unicode.isdigit c = true ->
             Unicode.isdecimal c = true) ->
  exists k, get_year_sort_key s = Ok k.
Proof.
  intros H. unfold get_year_sort_key. fold (year_text s).
  destruct (isdigit (year_text s)) eqn:Hd.
  - apply isdigit_forallb in Hd. destruct Hd as [Hne Hall].
    assert (Hdec : forallb Unicode.isdecimal (year_text s) = true).
    { rewrite forallb_forall in Hall. apply forallb_forall.
      intros x Hx. apply H; auto. apply year_text_incl. exact Hx. }
    rewrite (py_int_decimal _ Hne Hdec). cbn [bind]. eauto.
  - cbn [bind]. eauto.
Qed.

(** The scenarios of the specification. *)
Example get_year_sort_key_scenarios :
  get_year_sort_key (u "十一") = Ok 999%Z
  /\ get_year_sort_key (u "第三学年") = Ok 3%Z
  /\ get_year_sort_key (u "十") = Ok 10%Z
  /\ get_year_sort_key (u "12") = Ok 12%Z
  /\ get_year_sort_key (u "abc") = Ok 999%Z
  /\ get_year_sort_key (u "３") = Ok 3%Z.
Proof. vm_compute. repeat split. Qed.


(** ** The patterns *)

Module ReFacts.
Import Re.

Lemma longest_first_hit {A} (f : nat -> option A) (n : nat) (a : A) :
  f n = Some a -> longest_first f n = Some a.
Proof. intros H. destruct n; simpl; rewrite H; reflexivity. Qed.

Lemma match_lits (lit : str) (p : pattern) (s : str) :
  match_here (lits lit ++ p) (lit ++ s) = match_here p s.
Proof.
  induction lit as [|c lit IH]; simpl; auto.
  unfold char_eqb. rewrite N.eqb_refl. exact IH.
Qed.

Lemma run_stops (cs : cset) (body rest : str) :
  forallb (cset_mem cs) body = true ->
  match rest with x :: _ => cset_mem cs x = false | [] => True end ->
  run cs (body ++ rest) = length body.
Proof.
  intros Hb Hr. induction body as [|c body IH]; simpl in *.
  - destruct rest as [|x rest]; simpl; auto. rewrite Hr. reflexivity.
  - apply andb_true_iff in Hb. destruct Hb as [Hc Hb].
    rewrite Hc, (IH Hb). reflexivity.
Qed.

(** A greedy group takes the whole run when the rest of the pattern
    matches right after it. *)
Lemma match_group_plus (cs : cset) (p : pattern) (body rest : str)
      (groups : list str) :
  body <> [] ->
  forallb (cset_mem cs) body = true ->
  match rest with x :: _ => cset_mem cs x = false | [] => True end ->
  match_here p rest = Some groups ->
  match_here (GroupPlus cs :: p) (body ++ rest) = Some (body :: groups).
Proof.
  intros Hne Hb Hr Hp. cbn [match_here]. rewrite (run_stops _ _ _ Hb Hr).
  destruct body as [|c body]; [congruence|]. cbn [length].
  apply longest_first_hit.
  change (S (length body)) with (length (c :: body)).
  rewrite firstn_app, firstn_all, Nat.sub_diag, app_nil_r.
  rewrite skipn_app, skipn_all, Nat.sub_diag. simpl. rewrite Hp.
  reflexivity.
Qed.

End ReFacts.

(** A period numeral as the specification has it: signs of 一..十 and
    ASCII digits, at least one. *)
Definition spec_numeral (p : str) : bool :=
  match p with
  | [] => false
  | _ => forallb (fun c => existsb (char_eqb c) (u "一二三四五六七八九十")
                           || ascii_isdigit c) p
  end.

(** The semester pattern does what the specification says of every
    pattern: it matches 第, a numeral, 学期绩点 and captures the numeral as
    it stands. *)
Lemma gpa_pattern_matches (p rest : str) :
  spec_numeral p = true ->
  Re.re_match gpa_pattern (u "第" ++ p ++ u "学期绩点" ++ rest) = Some [p].
Proof.
  intros Hp. unfold Re.re_match, gpa_pattern.
  rewrite ReFacts.match_lits. cbn [app].
  apply ReFacts.match_group_plus.
  - destruct p; [discriminate | congruence].
  - destruct p as [|c p]; [discriminate|]. unfold spec_numeral in Hp.
    rewrite forallb_forall in Hp. apply forallb_forall. intros x Hx.
    specialize (Hp x Hx). unfold Re.cset_mem. simpl Re.chars. simpl Re.digits.
    apply orb_true_iff in Hp. destruct Hp as [Hp|Hp].
    + apply orb_true_iff. left. exact Hp.
    + apply orb_true_iff. right. simpl. unfold Unicode.isdecimal.
      rewrite (ascii_digit_decimal _ Hp). reflexivity.
  - vm_compute. reflexivity.
  - rewrite <- (app_nil_r (Re.lits (u "学期绩点"))).
    rewrite ReFacts.match_lits. reflexivity.
Qed.

(** C1: the academic-year patterns miss columns that the claim counts in.
    Their set is written [\\d] in a raw string, which is a backslash and
    the letter d, not a digit class, and it stops at 八: a year written
    with ASCII digits, or 九 or 十, matches no pattern, and its columns are
    dropped.  The semester pattern, written [\d] and up to 十, takes the
    same numerals. *)
Theorem year_patterns_miss_digits_and_nine_ten :
  Re.re_match (year_pattern (u "德育")) (u "第3学年德育") = None
  /\ Re.re_match (year_pattern (u "德育")) (u "第九学年德育") = None
  /\ Re.re_match (year_pattern (u "综测总分")) (u "第十学年综测总分") = None
  /\ extract_academic_year_data
       [ (u "第3学年德育", VInt 13); (u "第3学年智育", VInt 84);
         (u "第3学年体测成绩", VInt 90); (u "第3学年体测评级", VStr (u "良好"));
         (u "第3学年附加分", VInt 2); (u "第3学年综测总分", VInt 95) ] = []
  /\ extract_yearly_poverty_level_data
       [ (u "第3学年困难等级", VStr (u "一般困难")) ] = []
  /\ Re.re_match psych_pattern (u "第3学年心理等级") = None
  /\ Re.re_match gpa_pattern (u "第3学期绩点") = Some [u "3"]
  /\ Re.re_match gpa_pattern (u "第九学期绩点") = Some [u "九"]
  /\ Re.re_match (year_pattern (u "德育")) (u "第三学年德育") = Some [u "三"].
Proof. vm_compute. repeat split. Qed.

(** ** normalize_value *)

Section NormalizeFacts.

Local Open Scope Q_scope.

(** The formula of the specification. *)
Definition clamp (x lo hi : Q) : Q :=
  if Qle_bool x lo then lo else if Qle_bool hi x then hi else x.

Definition normalize_formula (x min_val max_val : Q) : Q :=
  clamp (((x - min_val) / (max_val - min_val)) * 100) 0 100.

Definition raises {A} (r : result A) : bool :=
  match r with Ok _ => false | Raise _ => true end.

Lemma py_float_raise (v : value) (e : exn) :
  py_float v = Raise e -> is_value_or_type_error e = true.
Proof.
  destruct v as [|x|n|s]; simpl; try discriminate.
  - intros [= <-]. reflexivity.
  - unfold float_of_str.
    destruct (remove_underscores _ _) as [t|]; [destruct (float_of_text t)|];
      try discriminate; intros [= <-]; reflexivity.
Qed.

Lemma range_zero (min_val max_val : Q) :
  Qis_zero (max_val - min_val) = true <-> max_val == min_val.
Proof.
  unfold Qis_zero. rewrite Qeq_bool_iff. split; intros H; lra.
Qed.

Lemma py_clamp (y : Q) :
  py_max (FFin 0) (py_min (FFin 100) (FFin y)) = FFin (clamp y 0 100).
Proof.
  unfold py_max, py_min, clamp, flt, Qltb.
  destruct (Qle_bool 100 y) eqn:E100; simpl.
  - destruct (Qle_bool y 0) eqn:E0; auto.
    apply Qle_bool_iff in E100. apply Qle_bool_iff in E0. lra.
  - destruct (Qle_bool y 0); reflexivity.
Qed.

(** With a range that is not degenerate, a cell that holds a finite number
    is normalized by the formula. *)
Lemma normalize_value_finite (v : value) (x min_val max_val : Q) :
  pd_isna v = false -> py_float v = Ok (FFin x) -> ~ max_val == min_val ->
  normalize_value v min_val max_val
  = Ok (FFin (normalize_formula x min_val max_val)).
Proof.
  intros Hna Hx Hd. unfold normalize_value.
  rewrite pd_isna_or_None, Hna, Hx. cbn [bind fsub].
  unfold fdiv. cbn [fis_zero].
  destruct (Qis_zero (max_val - min_val)) eqn:E.
  - apply range_zero in E. contradiction.
  - cbn [bind fmul]. rewrite py_clamp. reflexivity.
Qed.

Lemma normalize_value_absent (v : value) (min_val max_val : Q) :
  pd_isna v || raises (py_float v) = true ->
  normalize_value v min_val max_val = Ok (FFin 0).
Proof.
  intros H. unfold normalize_value. rewrite pd_isna_or_None.
  destruct (pd_isna v); auto. simpl in H.
  destruct (py_float v) as [x|e] eqn:E; [discriminate|].
  cbn [bind]. rewrite (py_float_raise _ _ E). reflexivity.
Qed.

Lemma normalize_value_returns (v : value) (min_val max_val : Q) :
  ~ max_val == min_val -> exists r, normalize_value v min_val max_val = Ok r.
Proof.
  intros Hd. unfold normalize_value.
  destruct (pd_isna v || is_None v); [eauto|].
  destruct (py_float v) as [x|e] eqn:E; cbn [bind].
  - unfold fdiv. cbn [fis_zero].
    destruct (Qis_zero (max_val - min_val)) eqn:Ez.
    + apply range_zero in Ez. contradiction.
    + cbn [bind]. eauto.
  - rewrite (py_float_raise _ _ E). eauto.
Qed.

Lemma normalize_value_zero_division (v : value) (min_val max_val : Q) :
  max_val == min_val -> pd_isna v || raises (py_float v) = false ->
  normalize_value v min_val max_val = Raise ZeroDivisionError.
Proof.
  intros Hd H. apply orb_false_iff in H. destruct H as [Hna Hr].
  unfold normalize_value. rewrite pd_isna_or_None, Hna.
  destruct (py_float v) as [x|e]; [|discriminate]. cbn [bind].
  unfold fdiv. cbn [fis_zero].
  apply range_zero in Hd. rewrite Hd. reflexivity.
Qed.




Lemma normalize_ratio_le (x y min_val max_val : Q) :
  min_val < max_val -> x <= y ->
  ((x - min_val) / (max_val - min_val)) * 100
  <= ((y - min_val) / (max_val - min_val)) * 100.
Proof.
  intros Hr Hxy.
  assert (Hk : 0 < / (max_val - min_val))
    by (apply Qinv_lt_0_compat; lra).
  unfold Qdiv.
  apply Qmult_le_compat_r; [|lra].
  apply Qmult_le_compat_r; lra.
Qed.

Lemma normalize_ratio_min (min_val max_val : Q) :
  ((min_val - min_val) / (max_val - min_val)) * 100 == 0.
Proof. unfold Qdiv. ring. Qed.

Lemma normalize_ratio_max (min_val max_val : Q) :
  min_val < max_val ->
  ((max_val - min_val) / (max_val - min_val)) * 100 == 100.
Proof. intros H. field. lra. Qed.

Lemma clamp_le (x y : Q) : x <= y -> clamp x 0 100 <= clamp y 0 100.
Proof.
  intros H. unfold clamp.
  destruct (Qle_bool x 0) eqn:Ex0; destruct (Qle_bool y 0) eqn:Ey0;
    destruct (Qle_bool 100 x) eqn:Ex1; destruct (Qle_bool 100 y) eqn:Ey1;
    repeat match goal with
           | E : Qle_bool _ _ = true |- _ => apply Qle_bool_iff in E
           | E : Qle_bool _ _ = false |- _ =>
             apply not_true_iff_false in E; rewrite Qle_bool_iff in E
           end; lra.
Qed.

Lemma clamp_range (x : Q) : 0 <= clamp x 0 100 <= 100.
Proof.
  unfold clamp.
  destruct (Qle_bool x 0) eqn:Ex0; destruct (Qle_bool 100 x) eqn:Ex1;
    repeat match goal with
           | E : Qle_bool _ _ = true |- _ => apply Qle_bool_iff in E
           | E : Qle_bool _ _ = false |- _ =>
             apply not_true_iff_false in E; rewrite Qle_bool_iff in E
           end; lra.
Qed.

Lemma clamp_low (x : Q) : x <= 0 -> clamp x 0 100 = 0.
Proof.
  intros H. unfold clamp. apply Qle_bool_iff in H. rewrite H. reflexivity.
Qed.

Lemma clamp_high (x : Q) : 100 <= x -> clamp x 0 100 = 100.
Proof.
  intros H. unfold clamp.
  destruct (Qle_bool x 0) eqn:E.
  - apply Qle_bool_iff in E. lra.
  - apply Qle_bool_iff in H. rewrite H. reflexivity.
Qed.

(** C6: for a range with [min < max], [normalize_value] computes
    [clamp(((x - min) / (max - min)) * 100, 0, 100)] of the coerced value;
    the result lies in [0, 100], grows with the value, is 0 from [min]
    down and 100 from [max] up, and is 0 for a value that is missing or
    does not parse; 84 in the range (0, 105) of 智育 gives 80. *)
Theorem normalize_value_formula (min_val max_val : Q) :
  min_val < max_val ->
  (forall v x, pd_isna v = false -> py_float v = Ok (FFin x) ->
     normalize_value v min_val max_val
     = Ok (FFin (normalize_formula x min_val max_val)))
  /\ (forall x, 0 <= normalize_formula x min_val max_val <= 100)
  /\ (forall x y, x <= y ->
        normalize_formula x min_val max_val
        <= normalize_formula y min_val max_val)
  /\ (forall x, x <= min_val -> normalize_formula x min_val max_val = 0)
  /\ (forall x, max_val <= x -> normalize_formula x min_val max_val = 100)
  /\ (forall v, pd_isna v || raises (py_float v) = true ->
        normalize_value v min_val max_val = Ok (FFin 0))
  /\ (normalize_value (VInt 84) (fst (default_normalization_params (u "智育")))
                      (snd (default_normalization_params (u "智育")))
      = Ok (FFin (normalize_formula 84 0 105))
      /\ normalize_formula 84 0 105 == 80).
Proof.
  intros Hr. repeat split.
  - intros v x Hna Hx. apply normalize_value_finite; auto. lra.
  - apply clamp_range.
  - apply clamp_range.
  - intros x y Hxy. apply clamp_le. apply normalize_ratio_le; assumption.
  - intros x Hx. apply clamp_low.
    eapply Qle_trans; [apply (normalize_ratio_le _ _ _ _ Hr Hx)|].
    rewrite (normalize_ratio_min min_val max_val). apply Qle_refl.
  - intros x Hx. apply clamp_high.
    eapply Qle_trans; [|apply (normalize_ratio_le _ _ _ _ Hr Hx)].
    rewrite (normalize_ratio_max _ _ Hr). apply Qle_refl.
  - intros v Hv. apply normalize_value_absent. exact Hv.
Qed.

End NormalizeFacts.

(** ** create_radar_chart *)

Definition item_field (item : radar_item) : str := fst (fst item).
Definition item_normalized (item : radar_item) : pyfloat := snd (fst item).
Definition item_raw (item : radar_item) : pyfloat := snd item.

(** The bundle has a 综测总分 that is there, is not missing and coerces to
    a float. *)
Definition composite_usable (year_data : dict value) : bool :=
  match dict_get year_data (u "综测总分") with
  | Some v => negb (pd_isna v) && negb (raises (py_float v))
  | None => false
  end.

(** The fields of the bundle, in the order of the chart. *)
Definition present_fields (year_data : dict value) : list str :=
  filter (dict_mem year_data) radar_fields.

Section RadarFacts.

Variable params : normalization_config.
Variable year_data : dict value.

(** The item of a field: its name, its normalized value, its value. *)
Definition radar_item_of (field : str) (item : radar_item) : Prop :=
  exists v n,
    dict_get year_data field = Some v
    /\ normalize_value v (fst (params field)) (snd (params field)) = Ok n
    /\ item = (field, n, get_display_value v).

Definition figure_of (year_name : str) (items : list radar_item) : figure :=
  {| trace_r := map item_normalized items;
     trace_theta := map item_field items;
     trace_name := year_name ++ u "综合评分";
     layout_title := year_name ++ u "综合素质雷达图" |}.

Lemma is_invalid_score_usable :
  is_invalid_score (series_get year_data (u "综测总分"))
  = negb (composite_usable year_data).
Proof.
  unfold is_invalid_score, composite_usable, series_get.
  destruct (dict_get year_data (u "综测总分")) as [v|]; [|reflexivity].
  rewrite pd_isna_or_None.
  destruct (pd_isna v); [reflexivity|].
  destruct (py_float v); reflexivity.
Qed.

Lemma normalization_params_get (field : str) :
  In field radar_fields ->
  dict_get (normalization_params params) field = Some (params field).
Proof.
  unfold radar_fields. intros H.
  repeat (destruct H as [H|H]; [subst field; reflexivity|]).
  destruct H.
Qed.

Lemma radar_visit_in (field : str) (radar_items : list radar_item) :
  In field radar_fields ->
  radar_visit params year_data radar_items field
  = match dict_get year_data field with
    | Some v =>
      normalized <- normalize_value v (fst (params field))
                                    (snd (params field)) ;;
      Ok (radar_items ++ [(field, normalized, get_display_value v)])
    | None => Ok radar_items
    end.
Proof.
  intros H. unfold radar_visit.
  rewrite (normalization_params_get _ H).
  destruct (dict_get year_data field); [|reflexivity].
  destruct (params field). reflexivity.
Qed.

(** What the loop appends: one item for each field of the bundle, in the
    order of the loop. *)
Lemma radar_loop_items (fields : list str) (acc items : list radar_item) :
  incl fields radar_fields ->
  for_each (radar_visit params year_data) fields acc = Ok items ->
  exists new,
    items = acc ++ new
    /\ Forall2 radar_item_of (filter (dict_mem year_data) fields) new.
Proof.
  revert acc. induction fields as [|field fields IH]; intros acc Hin H.
  - simpl in H. injection H as <-. exists []. rewrite app_nil_r.
    split; [reflexivity | constructor].
  - cbn [for_each] in H.
    rewrite radar_visit_in in H by (apply Hin; left; reflexivity).
    assert (Hin' : incl fields radar_fields)
      by (intros x Hx; apply Hin; right; exact Hx).
    cbn [filter]. unfold dict_mem at 1.
    destruct (dict_get year_data field) as [v|] eqn:Ev.
    + destruct (normalize_value v (fst (params field)) (snd (params field)))
        as [n|e] eqn:En; cbn [bind] in H; [|discriminate].
      destruct (IH _ Hin' H) as (new & -> & Hnew).
      exists ((field, n, get_display_value v) :: new).
      rewrite <- app_assoc. split; [reflexivity|].
      constructor; [|exact Hnew].
      exists v, n. auto.
    + cbn [bind] in H. apply (IH _ Hin' H).
Qed.

(** The loop returns when no range of a field of the bundle is
    degenerate. *)
Lemma radar_loop_returns (fields : list str) (acc : list radar_item) :
  incl fields radar_fields ->
  (forall field, In field fields ->
                 ~ (snd (params field) == fst (params field))%Q) ->
  exists items, for_each (radar_visit params year_data) fields acc = Ok items.
Proof.
  revert acc. induction fields as [|field fields IH]; intros acc Hin Hr.
  - simpl. eauto.
  - cbn [for_each].
    rewrite radar_visit_in by (apply Hin; left; reflexivity).
    assert (Hin' : incl fields radar_fields)
      by (intros x Hx; apply Hin; right; exact Hx).
    assert (Hr' : forall f, In f fields ->
                            ~ (snd (params f) == fst (params f))%Q)
      by (intros f Hf; apply Hr; right; exact Hf).
    destruct (dict_get year_data field) as [v|].
    + destruct (normalize_value_returns v _ _ (Hr field (or_introl eq_refl)))
        as [n Hn].
      rewrite Hn. cbn [bind]. apply IH; assumption.
    + cbn [bind]. apply IH; assumption.
Qed.

Lemma radar_items_fields (fields : list str) (items : list radar_item) :
  Forall2 radar_item_of fields items -> map item_field items = fields.
Proof.
  induction 1 as [|field item fields items (v & n & _ & _ & ->) _ IH];
    simpl; [reflexivity|].
  rewrite IH. reflexivity.
Qed.

(** Past the gate the loop meets 综测总分, so its list is not empty. *)
Lemma radar_loop_nonempty (items : list radar_item) :
  composite_usable year_data = true ->
  for_each (radar_visit params year_data) radar_fields [] = Ok items ->
  In (u "综测总分") (map item_field items).
Proof.
  intros Hu H.
  destruct (radar_loop_items radar_fields [] _ (incl_refl _) H)
    as (new & -> & Hnew).
  simpl app. rewrite (radar_items_fields _ _ Hnew).
  apply filter_In. split.
  - unfold radar_fields. simpl. tauto.
  - unfold dict_mem. unfold composite_usable in Hu.
    destruct (dict_get year_data (u "综测总分")); [reflexivity|discriminate].
Qed.

(** The chart as a case distinction. *)
Lemma create_radar_chart_cases (year_name : str) :
  create_radar_chart params year_data year_name
  = if composite_usable year_data then
      match for_each (radar_visit params year_data) radar_fields [] with
      | Ok [] => Ok None
      | Ok items => Ok (Some (figure_of year_name items, items))
      | Raise e => Raise e
      end
    else Ok None.
Proof.
  unfold create_radar_chart. rewrite is_invalid_score_usable.
  destruct (composite_usable year_data); [|reflexivity].
  cbn [negb].
  destruct (for_each _ radar_fields []) as [[|item items]|e];
    reflexivity.
Qed.

End RadarFacts.

Lemma normalize_value_formula_witness :
  normalize_value (VInt 84) 0 105
  = Ok (FFin (normalize_formula (inject_Z 84) 0 105)).
Proof.
  apply (proj1 (normalize_value_formula 0 105 eq_refl)); reflexivity.
Defined.

Lemma default_ranges_not_degenerate (field : str) :
  In field radar_fields ->
  ~ (snd (default_normalization_params field)
     == fst (default_normalization_params field))%Q.
Proof.
  unfold radar_fields. intros H.
  repeat (destruct H as [H|H];
          [subst field; intros E; vm_compute in E; discriminate E|]).
  destruct H.
Qed.

(** A first year whose 综测总分 reads 无 while the four other scores are
    numbers, and a second year with a full set of scores. *)
Definition year_without_total : dict value :=
  [ (u "德育", VNum (FFin 14)); (u "智育", VInt 84);
    (u "体测成绩", VInt 90); (u "附加分", VNum (FFin 2));
    (u "综测总分", VStr (u "无")) ].

Definition year_with_total : dict value :=
  [ (u "综测总分", VInt 88); (u "智育", VInt 84);
    (u "体测评级", VStr (u "良好")) ].



(** C10: when [create_radar_chart] returns a chart, its items are not
    empty, they are the fields of the bundle in the order 德育, 智育,
    体测成绩, 附加分, 综测总分, and 综测总分 is among them; past the gate
    the list of items is never empty, so the second [return None, None] is
    not reached. *)
Theorem create_radar_chart_items (params : normalization_config)
    (year_data : dict value) (year_name : str) :
  (forall fig items,
     create_radar_chart params year_data year_name = Ok (Some (fig, items)) ->
     items <> []
     /\ map item_field items = present_fields year_data
     /\ In (u "综测总分") (map item_field items)
     /\ dict_mem year_data (u "综测总分") = true
     /\ fig = figure_of year_name items)
  /\ (is_invalid_score (series_get year_data (u "综测总分")) = false ->
      for_each (radar_visit params year_data) radar_fields [] <> Ok []).
Proof.
  split.
  - intros fig items H. rewrite create_radar_chart_cases in H.
    destruct (composite_usable year_data) eqn:Eu; [|discriminate].
    destruct (for_each _ radar_fields []) as [l|e] eqn:El; [|discriminate].
    pose proof (radar_loop_nonempty params year_data l Eu El) as Hin.
    destruct (radar_loop_items params year_data radar_fields [] l
                               (incl_refl _) El) as (new & Hnew & Hall).
    simpl in Hnew. subst new.
    destruct l as [|item l]; [destruct Hin|].
    injection H as <- <-.
    repeat split.
    + discriminate.
    + apply (radar_items_fields params year_data). exact Hall.
    + exact Hin.
    + unfold composite_usable in Eu. unfold dict_mem.
      destruct (dict_get year_data (u "综测总分")); [reflexivity|discriminate].
  - intros Hg El. rewrite is_invalid_score_usable in Hg.
    apply negb_false_iff in Hg.
    apply (radar_loop_nonempty params year_data [] Hg) in El. destruct El.
Qed.

Lemma create_radar_chart_items_witness :
  map item_field
      [ (u "智育", FFin (normalize_formula (inject_Z 84) 0 105),
         FFin (inject_Z 84));
        (u "综测总分", FFin (normalize_formula (inject_Z 88) 0 110),
         FFin (inject_Z 88)) ]
  = present_fields year_with_total.
Proof.
  apply (proj1 (proj2 (proj1 (create_radar_chart_items
                                default_normalization_params year_with_total
                                (u "第二学年")) _ _ eq_refl))).
Defined.

(** ** sort_by *)

Section SortFacts.

Variable A : Type.
Variable key : A -> Z.

Definition key_le (a b : A) : Prop := (key a <= key b)%Z.

Definition has_key (k : Z) (a : A) : bool := Z.eqb (key a) k.

Lemma insert_by_perm (x : A) (l : list A) :
  Permutation (insert_by key x l) (x :: l).
Proof.
  induction l as [|y l IH]; simpl.
  - apply Permutation_refl.
  - destruct (Z.leb (key x) (key y)).
    + apply Permutation_refl.
    + apply perm_trans with (y :: x :: l).
      * apply perm_skip. exact IH.
      * apply perm_swap.
Qed.

Lemma sort_by_perm (l : list A) : Permutation (sort_by key l) l.
Proof.
  induction l as [|x l IH]; simpl.
  - apply perm_nil.
  - apply perm_trans with (x :: sort_by key l).
    + apply insert_by_perm.
    + apply perm_skip. exact IH.
Qed.

Lemma insert_by_hd (x y : A) (l : list A) :
  key_le y x -> HdRel key_le y l -> HdRel key_le y (insert_by key x l).
Proof.
  intros Hyx Hl. destruct l as [|z l]; simpl.
  - constructor. exact Hyx.
  - destruct (Z.leb (key x) (key z)); constructor.
    + exact Hyx.
    + inversion Hl. assumption.
Qed.

Lemma insert_by_sorted (x : A) (l : list A) :
  Sorted key_le l -> Sorted key_le (insert_by key x l).
Proof.
  induction 1 as [|y l Hs IH Hhd]; simpl.
  - repeat constructor.
  - destruct (Z.leb (key x) (key y)) eqn:E.
    + constructor.
      * constructor; assumption.
      * constructor. apply Z.leb_le. exact E.
    + constructor; [exact IH|].
      apply insert_by_hd; [|exact Hhd].
      apply Z.leb_gt in E. unfold key_le. lia.
Qed.

Lemma sort_by_sorted (l : list A) : Sorted key_le (sort_by key l).
Proof.
  induction l as [|x l IH]; simpl.
  - constructor.
  - apply insert_by_sorted. exact IH.
Qed.

(** Insertion passes only over smaller keys, so the entries of one key
    keep their order. *)
Lemma insert_by_stable (k : Z) (x : A) (l : list A) :
  filter (has_key k) (insert_by key x l) = filter (has_key k) (x :: l).
Proof.
  induction l as [|y l IH]; [reflexivity|].
  cbn [insert_by]. destruct (Z.leb (key x) (key y)) eqn:E; [reflexivity|].
  cbn [filter] in *. rewrite IH.
  apply Z.leb_gt in E.
  destruct (has_key k x) eqn:Ex; [|reflexivity].
  unfold has_key in *. apply Z.eqb_eq in Ex.
  replace (Z.eqb (key y) k) with false; [reflexivity|].
  symmetry. apply Z.eqb_neq. lia.
Qed.

Lemma sort_by_stable (k : Z) (l : list A) :
  filter (has_key k) (sort_by key l) = filter (has_key k) l.
Proof.
  induction l as [|x l IH]; [reflexivity|].
  cbn [sort_by]. rewrite insert_by_stable. cbn [filter]. rewrite IH.
  reflexivity.
Qed.

End SortFacts.

Arguments key_le {A} key a b.
Arguments has_key {A} key k a.

(** ** extract_semester_gpa_data *)

Lemma firstn_run (cs : Re.cset) (s : str) (k : nat) :
  k <= Re.run cs s -> forallb (Re.cset_mem cs) (firstn k s) = true.
Proof.
  revert k. induction s as [|c s IH]; intros k Hk.
  - destruct k; reflexivity.
  - destruct k as [|k]; [reflexivity|]. cbn [Re.run] in Hk. cbn [firstn forallb].
    destruct (Re.cset_mem cs c); [|lia].
    cbn [andb]. apply IH. lia.
Qed.

Lemma longest_first_some {A} (f : nat -> option A) (n : nat) (a : A) :
  Re.longest_first f n = Some a -> exists k, k <= n /\ f k = Some a.
Proof.
  induction n as [|n IH]; cbn [Re.longest_first].
  - destruct (f 0) eqn:E; [|discriminate]. intros [= <-]. exists 0. auto.
  - destruct (f (S n)) eqn:E.
    + intros [= <-]. exists (S n). auto.
    + intros H. destruct (IH H) as (k & Hk & Hf). exists k. split; [lia|auto].
Qed.

(** What the group of [第([...]+)...] holds lies inside the set. *)
Lemma group_in_set (cs : Re.cset) (p : Re.pattern) (column : str)
      (m : list str) :
  Re.re_match (Re.lits (u "第") ++ [Re.GroupPlus cs] ++ p) column = Some m ->
  Re.group 1 m <> [] /\ forallb (Re.cset_mem cs) (Re.group 1 m) = true.
Proof.
  unfold Re.re_match. change (Re.lits (u "第")) with [Re.Lit 0x7b2c%N].
  cbn [app Re.match_here].
  destruct column as [|c s]; [discriminate|].
  destruct (char_eqb c 0x7b2c%N); [|discriminate].
  destruct (Re.run cs s) as [|n] eqn:En; [discriminate|].
  intros H. apply longest_first_some in H. destruct H as (k & Hk & H).
  destruct (Re.match_here p (skipn (S k) s)) as [g|]; [|discriminate].
  cbn [option_map] in H.
  assert (Hm : m = firstn (S k) s :: g) by congruence. subst m.
  change (Re.group 1 (firstn (S k) s :: g)) with (firstn (S k) s). split.
  - destruct s; [discriminate En | discriminate].
  - apply firstn_run. lia.
Qed.

Lemma gpa_numeral_digits_decimal (c : char) :
  Re.cset_mem {| Re.chars := u "一二三四五六七八九十"; Re.digits := true |} c
  = true ->
  Unicode.isdigit c = true -> Unicode.isdecimal c = true.
Proof.
  unfold Re.cset_mem. cbn [Re.chars Re.digits andb].
  intros H Hd. apply orb_true_iff in H. destruct H as [H|H]; [|exact H].
  apply existsb_exists in H. destruct H as (x & Hx & Hc).
  apply N.eqb_eq in Hc. subst x.
  change (u "一二三四五六七八九十")
    with [0x4e00; 0x4e8c; 0x4e09; 0x56db; 0x4e94; 0x516d; 0x4e03; 0x516b;
          0x4e5d; 0x5341]%N in Hx.
  repeat (destruct Hx as [Hx|Hx];
          [subst c; vm_compute in Hd; discriminate Hd|]).
  destruct Hx.
Qed.

(** The order key never raises on what the semester pattern captures. *)
Lemma gpa_group_key (column : str) (m : list str) :
  Re.re_match gpa_pattern column = Some m ->
  exists k, get_year_sort_key (Re.group 1 m) = Ok k.
Proof.
  intros H. apply group_in_set in H. destruct H as [_ H].
  apply get_year_sort_key_returns. intros c Hc.
  rewrite forallb_forall in H. apply gpa_numeral_digits_decimal. auto.
Qed.

(** The columns that count: the pattern matches and the cell is a
    float. *)
Definition gpa_column_valid (student_data : series) (column : str) : bool :=
  match Re.re_match gpa_pattern column with
  | Some _ =>
    let value := series_get student_data column in
    negb (pd_isna value) && negb (raises (py_float value))
  | None => false
  end.

(** The entry of a column that counts. *)
Definition gpa_entry_of (student_data : series) (column : str)
    (entry : gpa_entry) : Prop :=
  exists m x k,
    Re.re_match gpa_pattern column = Some m
    /\ py_float (series_get student_data column) = Ok x
    /\ get_year_sort_key (Re.group 1 m) = Ok k
    /\ entry = {| semester := u "第" ++ Re.group 1 m ++ u "学期";
                  gpa := x; sort_key := k |}.

Lemma gpa_visit_valid (student_data : series) (acc : list gpa_entry)
      (column : str) :
  gpa_column_valid student_data column = true ->
  exists entry,
    gpa_entry_of student_data column entry
    /\ gpa_visit student_data acc column = Ok (acc ++ [entry]).
Proof.
  unfold gpa_column_valid, gpa_visit.
  destruct (Re.re_match gpa_pattern column) as [m|] eqn:Em; [|discriminate].
  cbv zeta. intros H. apply andb_true_iff in H. destruct H as [Hna Hf].
  unfold pd_notna. rewrite <- (pd_isna_or_None (series_get student_data column))
    in Hna.
  apply negb_true_iff in Hna. apply orb_false_iff in Hna.
  destruct Hna as [Hna Hnone]. rewrite Hna, Hnone. cbn [negb andb].
  destruct (py_float (series_get student_data column)) as [x|e] eqn:Ex;
    [|discriminate].
  destruct (gpa_group_key column m Em) as [k Hk].
  cbn [bind]. rewrite Hk. cbn [bind].
  eexists. split; [|reflexivity].
  exists m, x, k. auto.
Qed.

Lemma gpa_visit_invalid (student_data : series) (acc : list gpa_entry)
      (column : str) :
  gpa_column_valid student_data column = false ->
  gpa_visit student_data acc column = Ok acc.
Proof.
  unfold gpa_column_valid, gpa_visit.
  destruct (Re.re_match gpa_pattern column) as [m|] eqn:Em; [|reflexivity].
  cbv zeta. unfold pd_notna.
  destruct (pd_isna (series_get student_data column)) eqn:Hna;
    [reflexivity|].
  assert (Hnone : is_None (series_get student_data column) = false)
    by (destruct (series_get student_data column); try reflexivity;
        discriminate Hna).
  rewrite Hnone. cbn [negb andb].
  destruct (py_float (series_get student_data column)) as [x|e] eqn:Ex;
    [discriminate|].
  intros _. cbn [bind]. rewrite (py_float_raise _ _ Ex). reflexivity.
Qed.

(** One scan of the columns appends the entries of the columns that
    count, in column order. *)
Lemma gpa_scan (student_data : series) (columns : list str)
      (acc : list gpa_entry) :
  exists collected,
    for_each (gpa_visit student_data) columns acc = Ok (acc ++ collected)
    /\ Forall2 (gpa_entry_of student_data)
               (filter (gpa_column_valid student_data) columns) collected.
Proof.
  revert acc. induction columns as [|column columns IH]; intros acc.
  - exists []. rewrite app_nil_r. split; [reflexivity | constructor].
  - cbn [for_each filter].
    destruct (gpa_column_valid student_data column) eqn:Ev.
    + destruct (gpa_visit_valid student_data acc column Ev)
        as (entry & He & Hv).
      rewrite Hv. cbn [bind].
      destruct (IH (acc ++ [entry])) as (collected & Hc & Hall).
      exists (entry :: collected). rewrite Hc, <- app_assoc.
      split; [reflexivity | constructor; assumption].
    + rewrite (gpa_visit_invalid student_data acc column Ev). cbn [bind].
      apply IH.
Qed.

(** The first scenario of the specification: the second semester holds an
    empty text. *)
Definition gpa_scenario : series :=
  [ (u "第一学期绩点", VNum (FFin 3.5));
    (u "第三学期绩点", VNum (FFin 3.8));
    (u "第二学期绩点", VStr []) ].


(** ** extract_academic_year_data *)

Lemma dict_get_set_same {V} (d : dict V) (k : str) (v : V) :
  dict_get (dict_set d k v) k = Some v.
Proof.
  induction d as [|[k' v'] d IH]; simpl.
  - rewrite str_eqb_refl. reflexivity.
  - destruct (str_eqb k' k) eqn:E; simpl; rewrite E; auto.
Qed.

Lemma dict_get_set_other {V} (d : dict V) (k k' : str) (v : V) :
  k <> k' -> dict_get (dict_set d k v) k' = dict_get d k'.
Proof.
  intros Hk. induction d as [|[k0 v0] d IH]; simpl.
  - apply str_eqb_neq in Hk. rewrite Hk. reflexivity.
  - destruct (str_eqb k0 k) eqn:E; simpl.
    + apply str_eqb_eq in E. subst k0.
      apply str_eqb_neq in Hk. rewrite Hk. reflexivity.
    + destruct (str_eqb k0 k'); auto.
Qed.

(** The value of a field in the bundle of a year. *)
Definition bundle_get (academic_years : dict (dict value))
    (year field : str) : option value :=
  match dict_get academic_years year with
  | Some bundle => dict_get bundle field
  | None => None
  end.

(** A hit: the year, the field and the cell of a column that a pattern
    matched. *)
Definition year_hit := (str * str * value)%type.

Definition column_hits (student_data : series) (column : str)
  : list year_hit :=
  flat_map
    (fun entry : str * Re.pattern =>
       match Re.re_match (snd entry) column with
       | Some m =>
         [(Re.group 1 m, fst entry, series_get student_data column)]
       | None => []
       end)
    year_patterns.

Definition year_hits (student_data : series) : list year_hit :=
  flat_map (column_hits student_data) (index student_data).

(** What the assignment [academic_years[year][field] = value] does. *)
Definition store (academic_years : dict (dict value)) (hit : year_hit)
  : dict (dict value) :=
  let '(year, field, value) := hit in
  let academic_years :=
    if dict_mem academic_years year then academic_years
    else dict_set academic_years year [] in
  dict_set academic_years year
           (dict_set (dict_item academic_years year) field value).

Definition hit_is (year field : str) (hit : year_hit) : bool :=
  str_eqb (fst (fst hit)) year && str_eqb (snd (fst hit)) field.

Lemma bundle_get_store (academic_years : dict (dict value))
      (hit : year_hit) (year field : str) :
  bundle_get (store academic_years hit) year field
  = if hit_is year field hit then Some (snd hit)
    else bundle_get academic_years year field.
Proof.
  destruct hit as [[y f] v]. unfold store, hit_is, bundle_get. cbn [fst snd].
  set (ay := if dict_mem academic_years y then academic_years
             else dict_set academic_years y []).
  assert (Hitem : forall f', dict_get (dict_item ay y) f'
                             = bundle_get academic_years y f').
  { intros f'. unfold ay, dict_item, bundle_get, dict_mem.
    destruct (dict_get academic_years y) as [b|] eqn:E.
    - rewrite E. reflexivity.
    - rewrite dict_get_set_same. reflexivity. }
  assert (Hother : forall y', y <> y' ->
                              dict_get ay y' = dict_get academic_years y').
  { intros y' Hy. unfold ay. destruct (dict_mem academic_years y); auto.
    apply dict_get_set_other. exact Hy. }
  destruct (str_eqb y year) eqn:Ey; cbn [andb].
  - apply str_eqb_eq in Ey. subst year. rewrite dict_get_set_same.
    destruct (str_eqb f field) eqn:Ef.
    + apply str_eqb_eq in Ef. subst field. apply dict_get_set_same.
    + apply str_eqb_neq in Ef. rewrite (dict_get_set_other _ _ _ _ Ef).
      apply Hitem.
  - apply str_eqb_neq in Ey. rewrite (dict_get_set_other _ _ _ _ Ey).
    rewrite (Hother _ Ey). reflexivity.
Qed.

Lemma year_visit_store (student_data : series) (column : str)
      (patterns : dict Re.pattern) (acc : dict (dict value)) :
  fold_left (year_visit student_data column) patterns acc
  = fold_left store
      (flat_map
         (fun entry : str * Re.pattern =>
            match Re.re_match (snd entry) column with
            | Some m =>
              [(Re.group 1 m, fst entry, series_get student_data column)]
            | None => []
            end)
         patterns)
      acc.
Proof.
  revert acc.
  induction patterns as [|[field_type pattern] patterns IH]; intros acc;
    [reflexivity|].
  cbn [fold_left flat_map]. rewrite fold_left_app, IH. f_equal.
  unfold year_visit. cbn [fst snd].
  destruct (Re.re_match pattern column); reflexivity.
Qed.

Lemma extract_academic_year_data_store (student_data : series) :
  extract_academic_year_data student_data
  = fold_left store (year_hits student_data) [].
Proof.
  unfold extract_academic_year_data, year_hits.
  generalize (@nil (str * dict value)) as acc.
  induction (index student_data) as [|column columns IH]; intros acc;
    [reflexivity|].
  cbn [fold_left flat_map]. rewrite fold_left_app, IH. f_equal.
  apply year_visit_store.
Qed.

(** The bundle holds, for a year and a field, the cell of the last hit. *)
Lemma bundle_get_hits (hits : list year_hit)
      (academic_years : dict (dict value)) (year field : str) :
  bundle_get (fold_left store hits academic_years) year field
  = match find (hit_is year field) (rev hits) with
    | Some hit => Some (snd hit)
    | None => bundle_get academic_years year field
    end.
Proof.
  induction hits as [|hit hits IH] using rev_ind; [reflexivity|].
  rewrite fold_left_app, rev_app_distr. cbn [fold_left rev app find].
  rewrite bundle_get_store.
  destruct (hit_is year field hit); [reflexivity | exact IH].
Qed.

Lemma year_hits_origin (student_data : series) (hit : year_hit) :
  In hit (year_hits student_data) <->
  exists column field pattern m,
    In column (index student_data)
    /\ In (field, pattern) year_patterns
    /\ Re.re_match pattern column = Some m
    /\ hit = (Re.group 1 m, field, series_get student_data column).
Proof.
  unfold year_hits, column_hits. rewrite in_flat_map. split.
  - intros (column & Hc & H). apply in_flat_map in H.
    destruct H as ([field pattern] & Hp & H). cbn [fst snd] in H.
    destruct (Re.re_match pattern column) as [m|] eqn:Em; [|destruct H].
    destruct H as [<-|[]]. exists column, field, pattern, m. auto.
  - intros (column & field & pattern & m & Hc & Hp & Em & ->).
    exists column. split; [exact Hc|]. apply in_flat_map.
    exists (field, pattern). split; [exact Hp|]. cbn [fst snd].
    rewrite Em. left. reflexivity.
Qed.

Lemma year_patterns_get (field : str) (p : Re.pattern) :
  In (field, p) year_patterns -> dict_get year_patterns field = Some p.
Proof.
  unfold year_patterns. intros Hp.
  repeat (destruct Hp as [Hp|Hp]; [injection Hp as <- <-; reflexivity|]).
  destruct Hp.
Qed.

(** A field has one pattern. *)
Lemma year_patterns_functional (field : str) (p q : Re.pattern) :
  In (field, p) year_patterns -> In (field, q) year_patterns -> p = q.
Proof.
  intros Hp Hq. apply year_patterns_get in Hp. apply year_patterns_get in Hq.
  congruence.
Qed.

Lemma get_display_value_absent (v : value) :
  pd_isna v || raises (py_float v) = true -> get_display_value v = FFin 0.
Proof.
  unfold get_display_value. rewrite pd_isna_or_None.
  destruct (pd_isna v); [reflexivity|]. cbn [orb].
  destruct (py_float v); [discriminate | reflexivity].
Qed.

(** The reading of the claim: a numeric field whose cell does not coerce
    leaves no entry in the bundle of its year. *)
Definition skips_uncoercible_values (student_data : series) : Prop :=
  forall column field pattern m,
    In field radar_fields ->
    In (field, pattern) year_patterns ->
    In column (index student_data) ->
    Re.re_match pattern column = Some m ->
    raises (py_float (series_get student_data column)) = true ->
    bundle_get (extract_academic_year_data student_data)
               (Re.group 1 m) field = None.

(** A first year whose 德育 reads 无. *)
Definition year_with_text_score : series :=
  [ (u "第一学年德育", VStr (u "无")); (u "第一学年综测总分", VInt 90) ].

(** C5, as stated, fails: the 德育 of the first year reads 无, which is no
    number, and the bundle of the year holds it. *)
Lemma extract_academic_year_data_keeps_text_counterexample :
  ~ skips_uncoercible_values year_with_text_score.
Proof.
  intros H.
  specialize (H (u "第一学年德育") (u "德育") (year_pattern (u "德育"))
                [u "一"]).
  assert (Hnone : bundle_get (extract_academic_year_data year_with_text_score)
                             (Re.group 1 [u "一"]) (u "德育") = None).
  { apply H.
    - left. reflexivity.
    - left. reflexivity.
    - left. reflexivity.
    - vm_compute. reflexivity.
    - vm_compute. reflexivity. }
  vm_compute in Hnone. discriminate Hnone.
Qed.

(** C5, amended: [extract_academic_year_data] coerces nothing.  A column
    that matches the pattern of a field, the only one of its year and
    field, puts its cell into the bundle of the year as it is, whether or
    not the cell is a number, and whatever the other columns hold; a cell
    that is no number shows only in [create_radar_chart], which charts it
    as 0. *)
Theorem extract_academic_year_data_keeps_raw_value (student_data : series)
    (column field : str) (pattern : Re.pattern) (m : list str) :
  In (field, pattern) year_patterns ->
  In column (index student_data) ->
  Re.re_match pattern column = Some m ->
  (forall column' m',
      In column' (index student_data) ->
      Re.re_match pattern column' = Some m' ->
      Re.group 1 m' = Re.group 1 m -> column' = column) ->
  bundle_get (extract_academic_year_data student_data) (Re.group 1 m) field
  = Some (series_get student_data column)
  /\ (raises (py_float (series_get student_data column)) = true ->
      forall min_val max_val,
        normalize_value (series_get student_data column) min_val max_val
        = Ok (FFin 0)
        /\ get_display_value (series_get student_data column) = FFin 0).
Proof.
  intros Hp Hc Hm Huniq. split.
  - rewrite extract_academic_year_data_store, bundle_get_hits.
    set (hit := (Re.group 1 m, field, series_get student_data column)).
    assert (Hin : In hit (year_hits student_data)).
    { apply year_hits_origin. exists column, field, pattern, m. auto. }
    destruct (find (hit_is (Re.group 1 m) field)
                   (rev (year_hits student_data))) as [h|] eqn:Ef.
    + apply find_some in Ef. destruct Ef as [Hh His].
      apply in_rev in Hh. apply year_hits_origin in Hh.
      destruct Hh as (column' & field' & pattern' & m' & Hc' & Hp' & Hm' & ->).
      unfold hit_is in His. cbn [fst snd] in *.
      apply andb_true_iff in His. destruct His as [Hy Hf].
      apply str_eqb_eq in Hy. apply str_eqb_eq in Hf. subst field'.
      rewrite (year_patterns_functional _ _ _ Hp' Hp) in Hm'.
      rewrite (Huniq column' m' Hc' Hm' Hy). reflexivity.
    + apply in_rev in Hin.
      pose proof (find_none _ _ Ef hit Hin) as Hf.
      unfold hit_is, hit in Hf. cbn [fst snd] in Hf.
      rewrite !str_eqb_refl in Hf. discriminate Hf.
  - intros Hr min_val max_val. split.
    + apply normalize_value_absent. rewrite Hr. apply orb_true_r.
    + apply get_display_value_absent. rewrite Hr. apply orb_true_r.
Qed.

Lemma extract_academic_year_data_keeps_raw_value_witness :
  bundle_get (extract_academic_year_data year_with_text_score)
             (u "一") (u "德育")
  = Some (VStr (u "无")).
Proof.
  refine (proj1 (extract_academic_year_data_keeps_raw_value
                   year_with_text_score (u "第一学年德育") (u "德育")
                   (year_pattern (u "德育")) [u "一"] _ _ _ _)).
  - left. reflexivity.
  - left. reflexivity.
  - vm_compute. reflexivity.
  - intros column' m' [<-|[<-|[]]] Hm' _.
    + reflexivity.
    + vm_compute in Hm'. discriminate Hm'.
Defined.

(** * Further properties of the code *)

(** ** format_value, normalize_value and the chart *)

(** X1: what [format_value] returns can always be shown: it is never
    empty, never made of white space only, and never the word nan or none;
    it is 无 or a text that says something. *)
Theorem format_value_never_blank (float_repr : pyfloat -> str) (v : value) :
  format_value float_repr v <> []
  /\ whitespace_only (format_value float_repr v) = false
  /\ nan_none_token (strip (format_value float_repr v)) = false.
Proof.
  rewrite format_value_unfold.
  destruct (pd_isna v).
  - repeat split; [discriminate | vm_compute; reflexivity ..].
  - destruct (whitespace_only (py_str float_repr v)
              || nan_none_token (strip (py_str float_repr v))) eqn:E.
    + repeat split; [discriminate | vm_compute; reflexivity ..].
    + apply orb_false_iff in E. destruct E as [Ew Et].
      repeat split; try assumption.
      intros Hnil. rewrite Hnil in Ew. discriminate Ew.
Qed.

Lemma py_clamp_any (y : pyfloat) :
  exists q, py_max (FFin 0) (py_min (FFin 100) y) = FFin q
            /\ (0 <= q)%Q /\ (q <= 100)%Q.
Proof.
  destruct y as [|[|]|q].
  - exists 100%Q. split; [reflexivity|]. split; discriminate.
  - exists 0%Q. split; [reflexivity|]. split; discriminate.
  - exists 100%Q. split; [reflexivity|]. split; discriminate.
  - exists (clamp q 0 100). split; [apply py_clamp|]. apply clamp_range.
Qed.

(** Whenever [normalize_value] returns, it returns a number between 0 and
    100. *)
Lemma normalize_value_bounded (v : value) (min_val max_val : Q)
    (r : pyfloat) :
  normalize_value v min_val max_val = Ok r ->
  exists q, r = FFin q /\ (0 <= q)%Q /\ (q <= 100)%Q.
Proof.
  unfold normalize_value.
  destruct (pd_isna v || is_None v).
  - intros [= <-]. exists 0%Q. split; [reflexivity|]. split; discriminate.
  - destruct (py_float v) as [x|e]; cbn [bind].
    + destruct (fdiv (fsub x (FFin min_val)) (FFin (max_val - min_val)))
        as [ratio|e]; cbn [bind].
      * intros [= <-]. apply py_clamp_any.
      * destruct (is_value_or_type_error e); [|discriminate].
        intros [= <-]. exists 0%Q. split; [reflexivity|]. split; discriminate.
    + destruct (is_value_or_type_error e); [|discriminate].
      intros [= <-]. exists 0%Q. split; [reflexivity|]. split; discriminate.
Qed.



Lemma normalize_value_raise (v : value) (min_val max_val : Q) (e : exn) :
  normalize_value v min_val max_val = Raise e ->
  e = ZeroDivisionError /\ (max_val == min_val)%Q.
Proof.
  intros H.
  destruct (Qeq_dec max_val min_val) as [Hd|Hd].
  - split; [|exact Hd].
    unfold normalize_value in H.
    destruct (pd_isna v || is_None v); [discriminate|].
    destruct (py_float v) as [x|e'] eqn:Ex; cbn [bind] in H.
    + unfold fdiv in H. destruct (fis_zero _); cbn [bind] in H.
      * cbn in H. congruence.
      * discriminate.
    + rewrite (py_float_raise _ _ Ex) in H. discriminate.
  - destruct (normalize_value_returns v min_val max_val Hd) as [r Hr].
    congruence.
Qed.

Lemma radar_loop_raise (params : normalization_config)
      (year_data : dict value) (fields : list str) (acc : list radar_item)
      (e : exn) :
  incl fields radar_fields ->
  for_each (radar_visit params year_data) fields acc = Raise e ->
  e = ZeroDivisionError
  /\ exists field,
       In field fields /\ dict_mem year_data field = true
       /\ (snd (params field) == fst (params field))%Q.
Proof.
  revert acc. induction fields as [|field fields IH]; intros acc Hin H.
  - discriminate.
  - cbn [for_each] in H.
    rewrite radar_visit_in in H by (apply Hin; left; reflexivity).
    assert (Hin' : incl fields radar_fields)
      by (intros x Hx; apply Hin; right; exact Hx).
    destruct (dict_get year_data field) as [v|] eqn:Ev.
    + destruct (normalize_value v (fst (params field)) (snd (params field)))
        as [n|e'] eqn:En; cbn [bind] in H.
      * destruct (IH _ Hin' H) as (He & f & Hf & Hm & Hd).
        split; [exact He|]. exists f. split; [right; exact Hf|]. auto.
      * injection H as ->.
        destruct (normalize_value_raise _ _ _ _ En) as [He Hd].
        split; [exact He|]. exists field. split; [left; reflexivity|].
        split; [|exact Hd]. unfold dict_mem. rewrite Ev. reflexivity.
    + cbn [bind] in H.
      destruct (IH _ Hin' H) as (He & f & Hf & Hm & Hd).
      split; [exact He|]. exists f. split; [right; exact Hf|]. auto.
Qed.



Lemma Forall2_In_right {A B} (R : A -> B -> Prop) (l1 : list A)
      (l2 : list B) (y : B) :
  Forall2 R l1 l2 -> In y l2 -> exists x, In x l1 /\ R x y.
Proof.
  induction 1 as [|x y' l1 l2 Hxy _ IH]; intros Hin; [destruct Hin|].
  destruct Hin as [<-|Hin].
  - exists x. split; [left; reflexivity | exact Hxy].
  - destruct (IH Hin) as (x' & Hx' & Hr). exists x'. split; [right|]; auto.
Qed.

(** X4: in a chart that is returned, the plotted values and the
    categories are as many as the items, at most five, and every plotted
    value is a number between 0 and 100, the range of the radial axis. *)
Theorem create_radar_chart_values_in_range (params : normalization_config)
    (year_data : dict value) (year_name : str) (fig : figure)
    (items : list radar_item) :
  create_radar_chart params year_data year_name = Ok (Some (fig, items)) ->
  length (trace_r fig) = length items
  /\ length (trace_theta fig) = length items
  /\ length items <= 5
  /\ Forall (fun r => exists q, r = FFin q /\ (0 <= q)%Q /\ (q <= 100)%Q)
            (trace_r fig).
Proof.
  intros H. rewrite create_radar_chart_cases in H.
  destruct (composite_usable year_data); [|discriminate].
  destruct (for_each _ radar_fields []) as [l|e] eqn:El; [|discriminate].
  destruct (radar_loop_items params year_data radar_fields [] l
                             (incl_refl _) El) as (new & Hnew & Hall).
  simpl in Hnew. subst new.
  destruct l as [|item l]; [discriminate|].
  injection H as <- <-. cbn [trace_r trace_theta figure_of].
  rewrite !length_map. repeat split.
  - rewrite <- (Forall2_length Hall).
    apply Nat.le_trans with (length radar_fields); [|apply Nat.le_refl].
    apply filter_length_le.
  - apply Forall_forall. intros r Hr. apply in_map_iff in Hr.
    destruct Hr as (it & <- & Hit).
    destruct (Forall2_In_right _ _ _ it Hall Hit)
      as (f & _ & v & n & _ & Hn & ->).
    apply (normalize_value_bounded _ _ _ _ Hn).
Qed.

Lemma create_radar_chart_values_in_range_witness :
  length (trace_r (figure_of (u "第二学年")
                             [ (u "智育", FFin (normalize_formula (inject_Z 84) 0 105),
                                FFin (inject_Z 84));
                               (u "综测总分",
                                FFin (normalize_formula (inject_Z 88) 0 110),
                                FFin (inject_Z 88)) ]))
  = 2.
Proof.
  refine (proj1 (create_radar_chart_values_in_range
                   default_normalization_params year_with_total
                   (u "第二学年") _ _ eq_refl)).
Defined.


(** ** get_year_sort_key *)



Lemma replace_char_app (c : char) (a b : str) :
  replace [c] [] (a ++ b) = replace [c] [] a ++ replace [c] [] b.
Proof.
  unfold replace. induction a as [|x a IH]; [reflexivity|].
  cbn [app replace_from starts_with length Nat.sub].
  destruct (char_eqb c x && true); cbn [app]; rewrite IH; reflexivity.
Qed.

Lemma replace_pair_tail (a b : char) (q : str) (skip : nat) :
  a <> b -> skip <= length q ->
  replace_from [a; b] [] skip (q ++ [a; b]) = replace_from [a; b] [] skip q.
Proof.
  intros Hab. revert skip. induction q as [|x q IH]; intros skip Hk.
  - assert (skip = 0) by (simpl in Hk; lia). subst skip.
    cbn. unfold char_eqb. rewrite !N.eqb_refl. reflexivity.
  - destruct skip as [|k].
    + cbn [app replace_from length Nat.sub].
      destruct q as [|y q'].
      * cbn [app starts_with]. unfold char_eqb.
        destruct (N.eqb a x) eqn:Ex; cbn [andb].
        -- replace (N.eqb b a) with false
             by (symmetry; apply N.eqb_neq; congruence).
           cbn [andb]. f_equal. apply (IH 0). simpl. lia.
        -- f_equal. apply (IH 0). simpl. lia.
      * cbn [app starts_with].
        destruct (char_eqb a x && (char_eqb b y && true)).
        -- cbn [app]. apply (IH 1). simpl. lia.
        -- f_equal. apply (IH 0). simpl. lia.
    + cbn [app replace_from]. apply IH. simpl in Hk. lia.
Qed.

Lemma year_text_label (p : str) :
  year_text (u "第" ++ p ++ u "学年") = year_text p.
Proof.
  unfold year_text.
  change (u "第") with [0x7b2c%N]. change (u "学年") with [0x5b66; 0x5e74]%N.
  rewrite (replace_char_app 0x7b2c [0x7b2c%N]), replace_char_app.
  change (replace [0x7b2c%N] [] [0x7b2c%N]) with (@nil char).
  change (replace [0x7b2c%N] [] [0x5b66; 0x5e74]%N) with [0x5b66; 0x5e74]%N.
  cbn [app]. unfold replace at 1 3.
  apply replace_pair_tail; [discriminate | lia].
Qed.

(** X6: a period label and its bare numeral have the same key:
    [get_year_sort_key] of 第, a text, 学年 is [get_year_sort_key] of the
    text, whatever the text, also where it raises. *)
Theorem get_year_sort_key_label (p : str) :
  get_year_sort_key (u "第" ++ p ++ u "学年") = get_year_sort_key p.
Proof.
  unfold get_year_sort_key.
  fold (year_text (u "第" ++ p ++ u "学年")). fold (year_text p).
  rewrite year_text_label. reflexivity.
Qed.

Lemma year_numeral_not_digit (c : char) :
  Re.cset_mem year_numeral_set c = true -> Unicode.isdigit c = false.
Proof.
  unfold Re.cset_mem, year_numeral_set. cbn [Re.chars Re.digits andb].
  rewrite orb_false_r. intros H.
  apply existsb_exists in H. destruct H as (x & Hx & Hc).
  apply N.eqb_eq in Hc. subst x.
  change (u "一二三四五六七八\d")
    with [0x4e00; 0x4e8c; 0x4e09; 0x56db; 0x4e94; 0x516d; 0x4e03; 0x516b;
          0x5c; 0x64]%N in Hx.
  repeat (destruct Hx as [Hx|Hx]; [subst c; vm_compute; reflexivity|]).
  destruct Hx.
Qed.

Lemma table_value_of_year_numerals (t : str) (n : Z) :
  (forall c, In c t -> Re.cset_mem year_numeral_set c = true) ->
  dict_get chinese_to_num_map t = Some n -> (1 <= n <= 8)%Z.
Proof.
  intros Hset H. apply dict_get_In in H. unfold chinese_to_num_map in H.
  do 8 (destruct H as [H|H]; [injection H as <- <-; lia|]).
  destruct H as [H|H].
  - injection H as <- <-.
    specialize (Hset 0x4e5d%N (or_introl eq_refl)).
    vm_compute in Hset. discriminate Hset.
  - destruct H as [H|[]]. injection H as <- <-.
    specialize (Hset 0x5341%N (or_introl eq_refl)).
    vm_compute in Hset. discriminate Hset.
Qed.



(** ** The patterns *)

Lemma match_lits_inv (lit s : str) (groups : list str) :
  Re.match_here (Re.lits lit) s = Some groups ->
  groups = [] /\ exists rest, s = lit ++ rest.
Proof.
  revert s. induction lit as [|c lit IH]; intros s; cbn.
  - intros [= <-]. split; [reflexivity|]. exists s. reflexivity.
  - destruct s as [|x s]; [discriminate|].
    destruct (char_eqb x c) eqn:E; [|discriminate].
    apply N.eqb_eq in E. subst x. intros H.
    destruct (IH s H) as (Hg & rest & ->).
    split; [exact Hg|]. exists rest. reflexivity.
Qed.

(** What [([...]+)] followed by literals matches: a run inside the set,
    then the literals. *)
Lemma match_group_plus_inv (cs : Re.cset) (lit s : str) (m : list str) :
  Re.match_here (Re.GroupPlus cs :: Re.lits lit) s = Some m ->
  exists p rest,
    p <> [] /\ forallb (Re.cset_mem cs) p = true
    /\ s = p ++ lit ++ rest /\ m = [p].
Proof.
  cbn [Re.match_here].
  destruct (Re.run cs s) as [|n] eqn:En; [discriminate|].
  intros H. apply longest_first_some in H. destruct H as (k & Hk & H).
  destruct (Re.match_here (Re.lits lit) (skipn (S k) s)) as [g|] eqn:Eg;
    [|discriminate].
  cbn [option_map] in H.
  destruct (match_lits_inv _ _ _ Eg) as (-> & rest & Hrest).
  exists (firstn (S k) s), rest. repeat split.
  - destruct s; [discriminate En | discriminate].
  - apply firstn_run. lia.
  - rewrite <- Hrest. symmetry. apply firstn_skipn.
  - injection H as H. symmetry. exact H.
Qed.

Lemma year_numeral_set_stops_at_xue (rest : str) :
  match u "学年" ++ rest with
  | x :: _ => Re.cset_mem year_numeral_set x = false
  | [] => True
  end.
Proof. vm_compute. reflexivity. Qed.

(** Every match of a year pattern has the shape of the pattern. *)
Lemma year_pattern_match_inv (suffix column : str) (m : list str) :
  Re.re_match (year_pattern suffix) column = Some m ->
  exists p rest,
    p <> [] /\ forallb (Re.cset_mem year_numeral_set) p = true
    /\ column = u "第" ++ p ++ u "学年" ++ suffix ++ rest
    /\ m = [p].
Proof.
  unfold Re.re_match, year_pattern.
  change (Re.lits (u "第")) with [Re.Lit 0x7b2c%N].
  cbn [app]. intros H.
  destruct column as [|c s]; [discriminate H|].
  change (Re.match_here
            (Re.Lit 0x7b2c%N :: Re.GroupPlus year_numeral_set
               :: Re.lits (u "学年" ++ suffix)) (c :: s))
    with (if char_eqb c 0x7b2c%N
          then Re.match_here (Re.GroupPlus year_numeral_set
                                :: Re.lits (u "学年" ++ suffix)) s
          else None) in H.
  destruct (char_eqb c 0x7b2c%N) eqn:Ec; [|discriminate H].
  apply N.eqb_eq in Ec. subst c.
  destruct (match_group_plus_inv _ _ _ _ H)
    as (p & rest & Hne & Hp & -> & ->).
  exists p, rest. repeat split; auto.
Qed.

(** Every column of the shape of a year pattern is matched. *)
Lemma year_pattern_match_intro (suffix p rest : str) :
  p <> [] -> forallb (Re.cset_mem year_numeral_set) p = true ->
  Re.re_match (year_pattern suffix)
              (u "第" ++ p ++ u "学年" ++ suffix ++ rest) = Some [p].
Proof.
  intros Hne Hp. unfold Re.re_match, year_pattern.
  rewrite ReFacts.match_lits. cbn [app].
  replace (p ++ u "学年" ++ suffix ++ rest)
    with (p ++ (u "学年" ++ suffix) ++ rest)
    by (rewrite <- app_assoc; reflexivity).
  apply ReFacts.match_group_plus; auto.
  - rewrite <- app_assoc. apply year_numeral_set_stops_at_xue.
  - rewrite <- (app_nil_r (Re.lits (u "学年" ++ suffix))).
    rewrite ReFacts.match_lits. reflexivity.
Qed.

(** X8: a year pattern matches a column exactly when the column is 第, a
    non-empty run of the signs 一..八, backslash and d, 学年, the field
    name, and anything after it; the group is the run as it stands.  The
    match is anchored at the start only. *)
Theorem year_pattern_match_iff (suffix column : str) (m : list str) :
  Re.re_match (year_pattern suffix) column = Some m <->
  exists p rest,
    p <> [] /\ forallb (Re.cset_mem year_numeral_set) p = true
    /\ column = u "第" ++ p ++ u "学年" ++ suffix ++ rest
    /\ m = [p].
Proof.
  split.
  - apply year_pattern_match_inv.
  - intros (p & rest & Hne & Hp & -> & ->).
    apply year_pattern_match_intro; assumption.
Qed.

Lemma year_pattern_match_iff_witness :
  Re.re_match (year_pattern (u "德育")) (u "第二学年德育(补)") = Some [u "二"].
Proof.
  apply (proj2 (year_pattern_match_iff (u "德育") (u "第二学年德育(补)")
                                       [u "二"])).
  exists (u "二"), (u "(补)"). repeat split.
  discriminate.
Defined.

Lemma set_run_unique (cs : Re.cset) (a b : str) (x y : char) (r r' : str) :
  forallb (Re.cset_mem cs) a = true -> forallb (Re.cset_mem cs) b = true ->
  Re.cset_mem cs x = false -> Re.cset_mem cs y = false ->
  a ++ x :: r = b ++ y :: r' -> a = b /\ r = r'.
Proof.
  revert b. induction a as [|c a IH]; intros b Ha Hb Hx Hy H.
  - destruct b as [|d b]; cbn in H.
    + injection H as _ H. auto.
    + injection H as -> _. cbn in Hb. rewrite Hx in Hb. discriminate Hb.
  - destruct b as [|d b]; cbn in H.
    + injection H as -> _. cbn in Ha. rewrite Hy in Ha. discriminate Ha.
    + injection H as -> H. cbn in Ha, Hb.
      apply andb_true_iff in Ha. apply andb_true_iff in Hb.
      destruct (IH b (proj2 Ha) (proj2 Hb) Hx Hy H) as [-> ->]. auto.
Qed.

Lemma year_patterns_shape (field : str) (p : Re.pattern) :
  In (field, p) year_patterns ->
  p = year_pattern field
  /\ In field [u "德育"; u "智育"; u "体测成绩"; u "体测评级"; u "附加分";
               u "综测总分"].
Proof.
  unfold year_patterns. intros H.
  repeat (destruct H as [H|H];
          [injection H as <- <-; split; [reflexivity | cbn; tauto]|]).
  destruct H.
Qed.

(** X9: no column counts for two fields: when the patterns of two fields
    of [year_patterns] both match a column, the fields are the same, and
    so are the years they capture. *)
Theorem year_patterns_exclusive (column f g : str) (p q : Re.pattern)
    (m m' : list str) :
  In (f, p) year_patterns -> In (g, q) year_patterns ->
  Re.re_match p column = Some m -> Re.re_match q column = Some m' ->
  f = g /\ m = m'.
Proof.
  intros Hf Hg Hm Hm'.
  destruct (year_patterns_shape _ _ Hf) as [-> Hfn].
  destruct (year_patterns_shape _ _ Hg) as [-> Hgn].
  apply year_pattern_match_inv in Hm. apply year_pattern_match_inv in Hm'.
  destruct Hm as (a & r & _ & Ha & -> & ->).
  destruct Hm' as (b & r' & _ & Hb & Heq & ->).
  change (u "第") with [0x7b2c%N] in Heq.
  change (u "学年") with [0x5b66; 0x5e74]%N in Heq.
  cbn [app] in Heq. injection Heq as Heq.
  destruct (set_run_unique year_numeral_set a b 0x5b66%N 0x5b66%N _ _ Ha Hb
                           eq_refl eq_refl Heq) as [-> Hrest].
  split; [|reflexivity].
  injection Hrest as Hrest. clear - Hfn Hgn Hrest.
  cbn [In] in Hfn, Hgn.
  repeat (destruct Hfn as [<-|Hfn]);
    try (destruct Hfn);
    repeat (destruct Hgn as [<-|Hgn]);
    try (destruct Hgn);
    first [reflexivity | vm_compute in Hrest; congruence].
Qed.

Lemma year_patterns_exclusive_witness :
  u "德育" = u "德育" /\ [u "一"] = [u "一"].
Proof.
  apply (year_patterns_exclusive (u "第一学年德育") (u "德育") (u "德育")
                                 (year_pattern (u "德育"))
                                 (year_pattern (u "德育"))).
  - left. reflexivity.
  - left. reflexivity.
  - vm_compute. reflexivity.
  - vm_compute. reflexivity.
Defined.
